(** * Empathic-AI-Research: session registry, message cap, balanced assignment

    A shallow embedding of the Python sources
    - [src/utils/random_assignment.py]   (module [RandomAssignment]),
    - [src/chatbot/conversation_handler.py] (module [ConversationHandler]),
    - [src/chatbot/bot_manager.py]       (module [BotManager]),
    - [src/app.py]                       (module [App]),
    followed by the properties of the specification that concern them.

    Python values are modelled as follows: [int] is [Z]; [str] is [string]
    (the bytes of the text in UTF-8); [float] is
    the primitive binary64 [float]; a [dict] used as a map is a [gmap]; a
    [dict] with fixed keys is a record; [None]-or-value is [option]; a call
    that may raise returns a [result]. *)

From Stdlib Require Import ZArith Ascii String List Lia Bool.
From Stdlib Require Import Floats.PrimFloat.
From stdpp Require Import gmap strings list fin_maps.

Local Open Scope Z_scope.

(** ** Python primitives used by the sources *)

Module Exn.

(** Exceptions, by class, with the text [str(e)] gives. [Exception] stands
    for any class the sources do not name (provider and driver errors). *)
Inductive exn : Type :=
| ValueError (msg : string)
| IndexError (msg : string)
| RuntimeError (msg : string)
| Exception (msg : string).

Definition str (e : exn) : string :=
  match e with
  | ValueError m | IndexError m | RuntimeError m | Exception m => m
  end.

(** The outcome of a call: a value or a raised exception. *)
Inductive result (A : Type) : Type :=
| Ok (a : A)
| Raise (e : exn).
Arguments Ok {A} a.
Arguments Raise {A} e.

Definition bind {A B} (x : result A) (k : A -> result B) : result B :=
  match x with
  | Ok a => k a
  | Raise e => Raise e
  end.

Definition raises {A} (x : result A) : bool :=
  match x with Ok _ => false | Raise _ => true end.

End Exn.
Export Exn.

Module Py.

(** [min(xs)] on integers. *)
Definition min (xs : list Z) : result Z :=
  match xs with
  | [] => Raise (ValueError "min() arg is an empty sequence")
  | x :: xs' => Ok (fold_left Z.min xs' x)
  end.

(** [max(xs)] on integers. *)
Definition max (xs : list Z) : result Z :=
  match xs with
  | [] => Raise (ValueError "max() arg is an empty sequence")
  | x :: xs' => Ok (fold_left Z.max xs' x)
  end.

(** [random.choice(xs)]: [draw] is the number the generator produces for
    this call; the element at [draw mod len(xs)] is returned. *)
Definition choice {A} (draw : nat) (xs : list A) : result A :=
  match xs !! (draw mod length xs)%nat with
  | Some x => Ok x
  | None => Raise (IndexError "Cannot choose from an empty sequence")
  end.

(** [xs[-n:]] for a positive literal [n]: the last [n] elements, all of
    them when there are fewer. *)
Definition last_n {A} (n : nat) (xs : list A) : list A :=
  drop (length xs - n)%nat xs.

(** Truth value of a [str]: non-empty. *)
Definition truthy (s : string) : bool :=
  match s with EmptyString => false | String _ _ => true end.

(** [s or d]. *)
Definition or_else (s d : string) : string := if truthy s then s else d.

(** [c.upper()] on one byte (ASCII letters only; other bytes are kept). *)
Definition upper_ascii (c : ascii) : ascii :=
  let n := nat_of_ascii c in
  if ((97 <=? n) && (n <=? 122))%nat then ascii_of_nat (n - 32) else c.

Fixpoint upper (s : string) : string :=
  match s with
  | EmptyString => EmptyString
  | String c s' => String (upper_ascii c) (upper s')
  end.

(** The white space [str.strip()] removes, on the UTF-8 bytes of a text.
    One byte: tab, line feed, vertical tab, form feed, carriage return, the
    separators 28 to 31, and space. *)
Definition is_space (c : ascii) : bool :=
  let n := nat_of_ascii c in
  (((9 <=? n) && (n <=? 13)) || ((28 <=? n) && (n <=? 32)))%nat.

(** Two bytes: U+0085 (194 133) and U+00A0 (194 160). *)
Definition is_space2 (c1 c2 : ascii) : bool :=
  let n1 := nat_of_ascii c1 in
  let n2 := nat_of_ascii c2 in
  ((n1 =? 194) && ((n2 =? 133) || (n2 =? 160)))%nat.

(** Three bytes: U+1680 (225 154 128), U+2000 to U+200A (226 128 128 to
    226 128 138), U+2028, U+2029 and U+202F (226 128 168, 169 and 175),
    U+205F (226 129 159) and U+3000 (227 128 128). *)
Definition is_space3 (c1 c2 c3 : ascii) : bool :=
  let n1 := nat_of_ascii c1 in
  let n2 := nat_of_ascii c2 in
  let n3 := nat_of_ascii c3 in
  (((n1 =? 225) && (n2 =? 154) && (n3 =? 128))
   || ((n1 =? 226) && (n2 =? 128)
       && (((128 <=? n3) && (n3 <=? 138))
           || (n3 =? 168) || (n3 =? 169) || (n3 =? 175)))
   || ((n1 =? 226) && (n2 =? 129) && (n3 =? 159))
   || ((n1 =? 227) && (n2 =? 128) && (n3 =? 128)))%nat.

(** [s.lstrip()]: the white-space characters at the head are removed. *)
Fixpoint lstrip (s : string) : string :=
  match s with
  | EmptyString => s
  | String c1 s1 =>
      if is_space c1 then lstrip s1
      else
        match s1 with
        | EmptyString => s
        | String c2 s2 =>
            if is_space2 c1 c2 then lstrip s2
            else
              match s2 with
              | EmptyString => s
              | String c3 s3 => if is_space3 c1 c2 c3 then lstrip s3 else s
              end
        end
  end.

(** The same from the end of the text, on its bytes in reverse order. In
    UTF-8 a byte sequence that ends the text and encodes a character is
    that character: a first byte never occurs inside another character. *)
Fixpoint rstrip_reversed (s : string) : string :=
  match s with
  | EmptyString => s
  | String c1 s1 =>
      if is_space c1 then rstrip_reversed s1
      else
        match s1 with
        | EmptyString => s
        | String c2 s2 =>
            if is_space2 c2 c1 then rstrip_reversed s2
            else
              match s2 with
              | EmptyString => s
              | String c3 s3 =>
                  if is_space3 c3 c2 c1 then rstrip_reversed s3 else s
              end
        end
  end.

Definition rstrip (s : string) : string :=
  String.rev (rstrip_reversed (String.rev s)).

Definition strip (s : string) : string := rstrip (lstrip s).

End Py.

(** ** src/utils/random_assignment.py *)

Module RandomAssignment.

(** What [db_manager.get_statistics()] returns, as far as this class reads
    it. The database manager is not part of the sources: its answer is an
    input of every method here. *)
Record statistics : Type := {
  total_participants : Z;
  bot_distribution : gmap string Z
}.

Definition bot_types : list string :=
  ["emotional"; "cognitive"; "motivational"; "neutral"].

Definition get_bot_distribution (stats : statistics) : gmap string Z :=
  bot_distribution stats.

(** [[bot for bot, count in distribution.items() if count == min_count]] *)
Definition bot_types_with_min (distribution : gmap string Z) (min_count : Z)
  : list string :=
  (filter (fun bc => bc.2 = min_count) (map_to_list distribution)).*1.

Definition _assign_equal_distribution (stats : statistics) (draw : nat)
  : result string :=
  let distribution := get_bot_distribution stats in
  bind (Py.min ((map_to_list distribution).*2)) (fun min_count =>
  Py.choice draw (bot_types_with_min distribution min_count)).

Definition _assign_random (draw : nat) : result string :=
  Py.choice draw bot_types.

Definition _assign_sequential (stats : statistics) : result string :=
  let index := total_participants stats mod Z.of_nat (length bot_types) in
  match bot_types !! Z.to_nat index with
  | Some b => Ok b
  | None => Raise (IndexError "list index out of range")
  end.

Definition assign_bot_type (method : string) (stats : statistics)
  (draw : nat) : result string :=
  if decide (method = "equal_distribution") then
    _assign_equal_distribution stats draw
  else if decide (method = "random") then _assign_random draw
  else if decide (method = "sequential") then _assign_sequential stats
  else _assign_equal_distribution stats draw.

End RandomAssignment.

(** ** src/chatbot/conversation_handler.py *)

Module ConversationHandler.

(** One entry of [conversation['messages']]. [datetime.utcnow()] is read
    from the clock: its value is an input of the methods that stamp. *)
Record message : Type := {
  sender : string;
  content : string;
  timestamp : Z
}.

(** The conversation state dictionary. The keys ['ended_at'] and
    ['end_reason'] are absent until [end_conversation] sets them. *)
Module State.
Record t : Type := {
  session_id : string;
  participant_id : string;
  bot_type : string;
  current_message_num : Z;
  max_messages : Z;
  started_at : Z;
  is_active : bool;
  is_complete : bool;
  messages : list message;
  ended_at : option Z;
  end_reason : option string
}.
End State.

(** The handler object: [self.max_messages] and [self.conversations]. *)
Record t : Type := {
  max_messages : Z;
  conversations : gmap string State.t
}.

Definition __init__ (max_messages : Z) : t :=
  {| max_messages := max_messages; conversations := ∅ |}.

Definition start_conversation (self : t) (session_id participant_id
  bot_type : string) (now : Z) : State.t * t :=
  let conversation_state :=
    {| State.session_id := session_id;
       State.participant_id := participant_id;
       State.bot_type := bot_type;
       State.current_message_num := 0;
       State.max_messages := max_messages self;
       State.started_at := now;
       State.is_active := true;
       State.is_complete := false;
       State.messages := [];
       State.ended_at := None;
       State.end_reason := None |} in
  (conversation_state,
   {| max_messages := max_messages self;
      conversations := <[session_id := conversation_state]> (conversations self) |}).

(** The three updates [add_message] makes to the conversation, in the
    order of the source. *)
Definition append_message (m : message) (c : State.t) : State.t :=
  {| State.session_id := State.session_id c;
     State.participant_id := State.participant_id c;
     State.bot_type := State.bot_type c;
     State.current_message_num := State.current_message_num c;
     State.max_messages := State.max_messages c;
     State.started_at := State.started_at c;
     State.is_active := State.is_active c;
     State.is_complete := State.is_complete c;
     State.messages := State.messages c ++ [m];
     State.ended_at := State.ended_at c;
     State.end_reason := State.end_reason c |}.

Definition count_message (sender : string) (c : State.t) : State.t :=
  {| State.session_id := State.session_id c;
     State.participant_id := State.participant_id c;
     State.bot_type := State.bot_type c;
     State.current_message_num :=
       if decide (sender = "user") then State.current_message_num c + 1
       else State.current_message_num c;
     State.max_messages := State.max_messages c;
     State.started_at := State.started_at c;
     State.is_active := State.is_active c;
     State.is_complete := State.is_complete c;
     State.messages := State.messages c;
     State.ended_at := State.ended_at c;
     State.end_reason := State.end_reason c |}.

Definition check_limit (limit : Z) (c : State.t) : State.t :=
  if State.current_message_num c >=? limit then
    {| State.session_id := State.session_id c;
       State.participant_id := State.participant_id c;
       State.bot_type := State.bot_type c;
       State.current_message_num := State.current_message_num c;
       State.max_messages := State.max_messages c;
       State.started_at := State.started_at c;
       State.is_active := false;
       State.is_complete := true;
       State.messages := State.messages c;
       State.ended_at := State.ended_at c;
       State.end_reason := State.end_reason c |}
  else c.

Definition add_message (self : t) (session_id sender content : string)
  (now : Z) : result State.t * t :=
  match conversations self !! session_id with
  | None =>
      (Raise (ValueError ("Conversation not found for session: " +:+ session_id)),
       self)
  | Some conversation =>
      let message :=
        {| sender := sender; content := content; timestamp := now |} in
      let conversation :=
        check_limit (max_messages self)
          (count_message sender (append_message message conversation)) in
      (Ok conversation,
       {| max_messages := max_messages self;
          conversations := <[session_id := conversation]> (conversations self) |})
  end.

Definition get_conversation_state (self : t) (session_id : string)
  : option State.t :=
  conversations self !! session_id.

Definition is_conversation_active (self : t) (session_id : string) : bool :=
  match conversations self !! session_id with
  | None => false
  | Some conversation => State.is_active conversation
  end.

Definition get_remaining_messages (self : t) (session_id : string) : Z :=
  match conversations self !! session_id with
  | None => 0
  | Some conversation =>
      Z.max 0 (State.max_messages conversation
               - State.current_message_num conversation)
  end.

Definition should_end_conversation (self : t) (session_id : string) : bool :=
  match conversations self !! session_id with
  | None => true
  | Some conversation =>
      if State.current_message_num conversation
         >=? State.max_messages conversation then true
      else if negb (State.is_active conversation) then true
      else false
  end.

Definition end_conversation (self : t) (session_id reason : string)
  (now : Z) : t :=
  match conversations self !! session_id with
  | None => self
  | Some c =>
      let conversation :=
        {| State.session_id := State.session_id c;
           State.participant_id := State.participant_id c;
           State.bot_type := State.bot_type c;
           State.current_message_num := State.current_message_num c;
           State.max_messages := State.max_messages c;
           State.started_at := State.started_at c;
           State.is_active := false;
           State.is_complete :=
             if State.current_message_num c >=? State.max_messages c
             then true else State.is_complete c;
           State.messages := State.messages c;
           State.ended_at := Some now;
           State.end_reason := Some reason |} in
      {| max_messages := max_messages self;
         conversations := <[session_id := conversation]> (conversations self) |}
  end.

Definition cleanup_conversation (self : t) (session_id : string) : t :=
  {| max_messages := max_messages self;
     conversations := delete session_id (conversations self) |}.

(** A call of one of the state-changing methods, and a run of calls. *)
Inductive call : Type :=
| StartConversation (session_id participant_id bot_type : string) (now : Z)
| AddMessage (session_id sender content : string) (now : Z)
| EndConversation (session_id reason : string) (now : Z)
| CleanupConversation (session_id : string).

Definition step (self : t) (c : call) : t :=
  match c with
  | StartConversation sid pid bot now =>
      (start_conversation self sid pid bot now).2
  | AddMessage sid sender content now =>
      (add_message self sid sender content now).2
  | EndConversation sid reason now => end_conversation self sid reason now
  | CleanupConversation sid => cleanup_conversation self sid
  end.

Definition run (self : t) (cs : list call) : t := fold_left step cs self.

(** A run of [add_message] calls on one session, one per message given,
    and the number of user messages among them. *)
Definition add_messages (self : t) (session_id : string) (ms : list message)
  : t :=
  run self
    (map (fun m => AddMessage session_id (sender m) (content m) (timestamp m))
         ms).

Definition user_turns (ms : list message) : Z :=
  Z.of_nat (length (filter (fun m => sender m = "user") ms)).

(** What holds of every conversation of a handler whose cap is at least 1:
    the conversation carries the handler's cap, and it is flagged complete
    exactly when its counter has reached the cap. *)
Definition capped (self : t) : Prop :=
  ∀ sid c, conversations self !! sid = Some c →
    State.max_messages c = max_messages self
    ∧ (State.is_complete c = true
       ↔ max_messages self ≤ State.current_message_num c).

Definition get_conversation_messages (self : t) (session_id : string)
  : list message :=
  match conversations self !! session_id with
  | None => []
  | Some conversation => State.messages conversation
  end.

(** [sum(1 for conv in self.conversations.values() if conv[flag])] *)
Definition count_where (flag : State.t → bool) (self : t) : Z :=
  Z.of_nat
    (length (filter (λ kc, flag kc.2 = true) (map_to_list (conversations self)))).

Definition get_active_conversations_count (self : t) : Z :=
  count_where State.is_active self.

(** The dictionary [get_statistics] returns. *)
Record statistics : Type := {
  total_conversations : Z;
  active_conversations : Z;
  completed_conversations : Z;
  incomplete_conversations : Z
}.

Definition get_statistics (self : t) : statistics :=
  let total := Z.of_nat (size (conversations self)) in
  let active := count_where State.is_active self in
  let complete := count_where State.is_complete self in
  {| total_conversations := total;
     active_conversations := active;
     completed_conversations := complete;
     incomplete_conversations := total - complete |}.

(** The call starts the conversation of [sid] anew or removes it. *)
Definition resets (sid : string) (c : call) : bool :=
  match c with
  | StartConversation s _ _ _ | CleanupConversation s => bool_decide (s = sid)
  | AddMessage _ _ _ _ | EndConversation _ _ _ => false
  end.

(** [c'] is a later state of the conversation [c]: the same identity and
    cap, a counter that is not lower, the messages of [c] at the head of
    its own, and the flags of an ended or completed conversation kept. *)
Definition continues (c c' : State.t) : Prop :=
  State.session_id c' = State.session_id c
  ∧ State.participant_id c' = State.participant_id c
  ∧ State.bot_type c' = State.bot_type c
  ∧ State.max_messages c' = State.max_messages c
  ∧ State.started_at c' = State.started_at c
  ∧ State.current_message_num c ≤ State.current_message_num c'
  ∧ State.messages c `prefix_of` State.messages c'
  ∧ (State.is_complete c = true → State.is_complete c' = true)
  ∧ (State.is_active c = false → State.is_active c' = false).

(** No conversation of the handler is both complete and active. *)
Definition closed_when_complete (self : t) : Prop :=
  ∀ sid c, conversations self !! sid = Some c →
    State.is_complete c = true → State.is_active c = false.

End ConversationHandler.

(** ** src/chatbot/bot_manager.py *)

Module BotManager.

(** The file system as the module reads it: a path that exists is mapped
    to what [open(p).read()] gives, a text or a failure. *)
Abbreviation files := (gmap string (result string)).

Definition _first_existing_path (fs : files) (paths : list string)
  : option string :=
  head (filter (fun p => Py.truthy p = true ∧ is_Some (fs !! p)) paths).

Definition _read_text (fs : files) (paths : list string) : string :=
  match _first_existing_path fs paths with
  | None => ""
  | Some fp =>
      match fs !! fp with
      | Some (Ok text) => Py.strip text
      | _ => ""
      end
  end.

(** A message of the chat protocol, as kept in a session's history and
    sent to the provider: [{"role": ..., "content": ...}]. *)
Record turn : Type := { role : string; content : string }.

(** An entry of [self.sessions]. *)
Record session : Type := {
  participant_id : string;
  bot_type : string;
  history : list turn
}.

(** The arguments of [chat.completions.create]. *)
Module Request.
Record t : Type := {
  model : string;
  messages : list turn;
  temperature : float;
  max_tokens : Z
}.
End Request.

(** The crisis detector ([crisis_detector.py] is not part of the sources):
    [check_message] returns the pair [(is_crisis, detected_keyword)] or
    raises; [get_crisis_response] is [None] when the object has no such
    attribute, and otherwise what calling it gives. *)
Record CrisisDetector : Type := {
  check_message : string -> result (bool * option string);
  get_crisis_response : option (result string)
}.

(** The manager object. [_client] is the provider: given the requests made
    so far and a request, the [content] of the first choice, or a failure
    (anything raised inside the [try] of [_call_model]). *)
Record t : Type := {
  model : string;
  temperature : float;
  max_tokens : Z;
  app_cfg_path : option string;
  crisis_text_path : option string;
  prompts : gmap string string;
  bot_types : list string;
  sessions : gmap string session;
  crisis : option CrisisDetector;
  _client : list Request.t -> Request.t -> result (option string)
}.

Definition set_sessions (self : t) (s : gmap string session) : t :=
  {| model := model self;
     temperature := temperature self;
     max_tokens := max_tokens self;
     app_cfg_path := app_cfg_path self;
     crisis_text_path := crisis_text_path self;
     prompts := prompts self;
     bot_types := bot_types self;
     sessions := s;
     crisis := crisis self;
     _client := _client self |}.

(** [__init__], for configuration values already looked up in [config]:
    [detector] is [None] when the crisis module cannot be imported, and
    otherwise what constructing the detector on a path gives; [client] is
    what [_init_client] obtains. *)
Definition __init__ (fs : files) (api_model : string) (api_temperature : float)
  (api_max_tokens : Z)
  (detector : option (string -> result CrisisDetector))
  (client : result (list Request.t -> Request.t -> result (option string)))
  : result t :=
  let app_cfg_path :=
    _first_existing_path fs ["config/app_config.yaml"; "app_config.yaml"] in
  let crisis :=
    match detector, app_cfg_path with
    | Some make, Some path =>
        match make path with Ok d => Some d | Raise _ => None end
    | _, _ => None
    end in
  match client with
  | Raise e =>
      Raise (RuntimeError ("Failed to init OpenAI client: " +:+ str e))
  | Ok c =>
      Ok {| model := api_model;
            temperature := api_temperature;
            max_tokens := api_max_tokens;
            app_cfg_path := app_cfg_path;
            crisis_text_path :=
              _first_existing_path fs
                ["config/crisis_response.txt"; "crisis_response.txt"];
            prompts :=
              <["cognitive" := _read_text fs
                  ["config/cognitive_empathy_prompt.txt";
                   "cognitive_empathy_prompt.txt"]]>
              (<["emotional" := _read_text fs
                  ["config/emotional_empathy_prompt.txt";
                   "emotional_empathy_prompt.txt"]]>
              (<["motivational" := _read_text fs
                  ["config/motivational_empathy_prompt.txt";
                   "motivational_empathy_prompt.txt"]]>
              (<["control" := ""]> ∅)));
            bot_types := ["cognitive"; "emotional"; "motivational"; "control"];
            sessions := ∅;
            crisis := crisis;
            _client := c |}
  end.

(** The dictionary [create_new_session] returns. *)
Record new_session : Type := {
  ns_session_id : string;
  ns_participant_id : string;
  ns_bot_type : string
}.

(** [uuid1], [uuid2] are the texts of the two [uuid.uuid4()] values and
    [draw] the generator's number for [random.choice]. *)
Definition create_new_session (self : t) (uuid1 uuid2 : string) (draw : nat)
  : result new_session * t :=
  let session_id := uuid1 in
  let participant_id := "P" +:+ Py.upper (substring 0 8 uuid2) in
  match Py.choice draw (bot_types self) with
  | Raise e => (Raise e, self)
  | Ok bot_type =>
      (Ok {| ns_session_id := session_id;
             ns_participant_id := participant_id;
             ns_bot_type := bot_type |},
       set_sessions self
         (<[session_id := {| participant_id := participant_id;
                             bot_type := bot_type;
                             history := [] |}]> (sessions self)))
  end.

Definition default_crisis_text : string :=
  "I'm concerned about your safety. If you are in immediate danger, please call your local emergency number. "
  +:+ "You can also reach out to a trusted person or a professional helpline available in your area.".

Definition _crisis_text (fs : files) (self : t) : string :=
  let fallback :=
    Py.or_else
      (_read_text fs
         match crisis_text_path self with
         | Some p => if Py.truthy p then [p] else []
         | None => []
         end)
      default_crisis_text in
  match crisis self with
  | Some detector =>
      match get_crisis_response detector with
      | Some (Ok text) => text
      | Some (Raise _) | None => fallback
      end
  | None => fallback
  end.

(** The text before [{e}] in the reply of the [except] branch of
    [_call_model]; the source spells the apostrophe with the bytes
    195 162 226 130 172 226 132 162. *)
Definition error_prefix : string :=
  "I" +:+
  String (ascii_of_nat 195) (String (ascii_of_nat 162)
  (String (ascii_of_nat 226) (String (ascii_of_nat 130) (String (ascii_of_nat 172)
  (String (ascii_of_nat 226) (String (ascii_of_nat 132) (String (ascii_of_nat 162)
  "m sorry, I ran into an error: "))))))).

(** The arguments [_call_model] passes for a list of messages. *)
Definition request_for (self : t) (messages : list turn) : Request.t :=
  {| Request.model := Py.or_else (model self) "gpt-4";
     Request.messages := messages;
     Request.temperature := temperature self;
     Request.max_tokens := max_tokens self |}.

(** [_call_model]: the reply, and the log of requests extended by the one
    made here. *)
Definition _call_model (self : t) (api_log : list Request.t)
  (messages : list turn) : string * list Request.t :=
  let request := request_for self messages in
  (match _client self api_log request with
   | Ok content => Py.strip (Py.or_else (default "" content) "")
   | Raise e => error_prefix +:+ str e
   end,
   api_log ++ [request]).

(** The dictionary [get_bot_response] returns. *)
Record response : Type := {
  bot_response : string;
  crisis_detected : bool;
  detected_keyword : option string
}.

(** The crisis check of [get_bot_response]: [(False, None)] when no
    detector is configured or when the detector raises. *)
Definition crisis_check (self : t) (user_message : string)
  : bool * option string :=
  match crisis self with
  | None => (false, None)
  | Some detector =>
      match check_message detector user_message with
      | Ok r => r
      | Raise _ => (false, None)
      end
  end.

(** [messages] as built by [get_bot_response]. *)
Definition build_messages (self : t) (sess : session) (user_message : string)
  : list turn :=
  let system_prompt := default "" (prompts self !! bot_type sess) in
  (if Py.truthy system_prompt
   then [{| role := "system"; content := system_prompt |}] else [])
  ++ Py.last_n 20 (history sess)
  ++ [{| role := "user"; content := user_message |}].

Definition get_bot_response (fs : files) (self : t)
  (api_log : list Request.t) (session_id user_message : string)
  (message_num : Z) : result response * t * list Request.t :=
  match sessions self !! session_id with
  | None =>
      (Raise (ValueError ("Session not found: " +:+ session_id)), self, api_log)
  | Some sess =>
      let '(is_crisis, detected_keyword) := crisis_check self user_message in
      if is_crisis then
        (Ok {| bot_response := _crisis_text fs self;
               crisis_detected := true;
               detected_keyword := detected_keyword |},
         self, api_log)
      else
        let messages := build_messages self sess user_message in
        let '(reply, api_log) := _call_model self api_log messages in
        let sess :=
          {| participant_id := participant_id sess;
             bot_type := bot_type sess;
             history :=
               (history sess ++ [{| role := "user"; content := user_message |}])
               ++ [{| role := "assistant"; content := reply |}] |} in
        (Ok {| bot_response := reply;
               crisis_detected := false;
               detected_keyword := None |},
         set_sessions self (<[session_id := sess]> (sessions self)),
         api_log)
  end.

Definition end_session (self : t) (session_id : string) (completed : bool)
  : t :=
  match sessions self !! session_id with
  | Some _ => set_sessions self (delete session_id (sessions self))
  | None => self
  end.

(** A run of [get_bot_response] calls on one session: the messages are sent
    one after the other, numbered from [message_num] on. *)
Fixpoint converse (fs : files) (self : t) (api_log : list Request.t)
  (session_id : string) (user_messages : list string) (message_num : Z)
  : t * list Request.t :=
  match user_messages with
  | [] => (self, api_log)
  | user_message :: rest =>
      let '(_, self, api_log) :=
        get_bot_response fs self api_log session_id user_message message_num in
      converse fs self api_log session_id rest (message_num + 1)
  end.

(** The messages of a run that are not short-circuited as a crisis. *)
Definition clear_messages (self : t) (user_messages : list string)
  : list string :=
  filter (λ m, (crisis_check self m).1 = false) user_messages.

(** A history made of pairs: a user turn, then an assistant turn. *)
Fixpoint paired (h : list turn) : bool :=
  match h with
  | [] => true
  | u :: h' =>
      match h' with
      | [] => false
      | a :: h'' =>
          bool_decide (role u = "user") && bool_decide (role a = "assistant")
          && paired h''
      end
  end.

End BotManager.

(** ** src/app.py *)

Module App.

(** The database manager ([src/database/db_manager.py] is not part of the
    sources), as the interface [main] calls: each method may raise and may
    change the store. [save_message] returns the [id] attribute of the
    saved row, if it has one; its last argument is [None] where the call
    leaves [contains_crisis_keyword] out. *)
Class DatabaseManager (DB : Type) : Type := {
  create_participant :
    DB -> string -> string -> option string -> result unit * DB;
  save_message :
    DB -> string -> Z -> string -> string -> option bool
    -> result (option Z) * DB;
  mark_participant_completed : DB -> string -> result unit * DB;
  create_crisis_flag : DB -> string -> Z -> string -> result unit * DB
}.

(** [st.session_state], as far as [main] reads and writes it. The three
    identifiers hold what [initialize_session_state] (not part of the
    sources) put there until consent is given; the empty text stands for
    any such falsy value. *)
Record session_state : Type := {
  show_welcome : bool;
  conversation_active : bool;
  conversation_complete : bool;
  session_id : string;
  participant_id : string;
  bot_type : string;
  messages : list BotManager.turn;
  current_message_num : Z;
  prolific_id : option string
}.

(** What the page gives during one run of the script: whether the welcome
    page reports consent, and what the chat input returns. *)
Record page_input : Type := {
  consent : bool;
  user_input : option string
}.

(** The randomness one run may consume (in [create_new_session]). *)
Record entropy : Type := {
  uuid1 : string;
  uuid2 : string;
  draw : nat
}.

(** How a run of [main] ends: it returns, [st.rerun()] stops it, or an
    exception leaves it. *)
Inductive control : Type :=
| Returned
| Rerun
| Raised (e : exn).

Section Main.
Context {DB : Type} `{DatabaseManager DB}.

(** Everything a run of [main] can change. [error_shown] is the
    exception reported by [st.error] in the last run, if any. *)
Record world : Type := {
  st : session_state;
  bot_manager : BotManager.t;
  api_log : list BotManager.Request.t;
  db : DB;
  error_shown : option exn
}.

Definition with_st (w : world) (s : session_state) : world :=
  {| st := s; bot_manager := bot_manager w; api_log := api_log w;
     db := db w; error_shown := error_shown w |}.

Definition with_db (w : world) (d : DB) : world :=
  {| st := st w; bot_manager := bot_manager w; api_log := api_log w;
     db := d; error_shown := error_shown w |}.

Definition with_bot (w : world) (b : BotManager.t)
  (log : list BotManager.Request.t) : world :=
  {| st := st w; bot_manager := b; api_log := log;
     db := db w; error_shown := error_shown w |}.

Definition with_error (w : world) (e : option exn) : world :=
  {| st := st w; bot_manager := bot_manager w; api_log := api_log w;
     db := db w; error_shown := e |}.

(** Stage 1, after consent: lines 91 to 110. *)
Definition welcome (rnd : entropy) (w : world) : control * world :=
  match BotManager.create_new_session (bot_manager w)
          (uuid1 rnd) (uuid2 rnd) (draw rnd) with
  | (Raise e, _) => (Raised e, w)
  | (Ok session_data, bm) =>
      let s := st w in
      let s :=
        {| show_welcome := false;
           conversation_active := true;
           conversation_complete := conversation_complete s;
           session_id := BotManager.ns_session_id session_data;
           participant_id := BotManager.ns_participant_id session_data;
           bot_type := BotManager.ns_bot_type session_data;
           messages := [];
           current_message_num := 0;
           prolific_id := prolific_id s |} in
      let w := with_st (with_bot w bm (api_log w)) s in
      match create_participant (db w) (participant_id s) (bot_type s)
              (prolific_id s) with
      | (Raise e, d) => (Raised e, with_db w d)
      | (Ok _, d) => (Rerun, with_db w d)
      end
  end.

(** Lines 160 to 177: put the session back into a manager that lacks it. *)
Definition rehydrate (w : world) : world :=
  let s := st w in
  let bm := bot_manager w in
  if Py.truthy (session_id s)
     && bool_decide (BotManager.sessions bm !! session_id s = None)
  then
    let hist :=
      filter (fun m => BotManager.role m = "user"
                       ∨ BotManager.role m = "assistant")
             (Py.last_n 20 (messages s)) in
    with_bot w
      (BotManager.set_sessions bm
         (<[session_id s :=
              {| BotManager.participant_id := participant_id s;
                 BotManager.bot_type := bot_type s;
                 BotManager.history := hist |}]> (BotManager.sessions bm)))
      (api_log w)
  else w.

(** Lines 179 to 191: the check made before any input is taken. *)
Definition close_conversation (w : world) : control * world :=
  let s := st w in
  let s :=
    {| show_welcome := show_welcome s;
       conversation_active := false;
       conversation_complete := true;
       session_id := session_id s;
       participant_id := participant_id s;
       bot_type := bot_type s;
       messages := messages s;
       current_message_num := current_message_num s;
       prolific_id := prolific_id s |} in
  let w := with_st w s in
  match mark_participant_completed (db w) (participant_id s) with
  | (Raise e, d) => (Raised e, with_db w d)
  | (Ok _, d) =>
      (Rerun,
       with_bot (with_db w d)
         (BotManager.end_session (bot_manager w) (session_id s) true)
         (api_log w))
  end.

Definition push_message (s : session_state) (m : BotManager.turn)
  (num : Z) : session_state :=
  {| show_welcome := show_welcome s;
     conversation_active := conversation_active s;
     conversation_complete := conversation_complete s;
     session_id := session_id s;
     participant_id := participant_id s;
     bot_type := bot_type s;
     messages := messages s ++ [m];
     current_message_num := num;
     prolific_id := prolific_id s |}.

(** Lines 243 to 258, inside their own [try]: a failure is dropped. *)
Definition flag_crisis (w : world) (response_data : BotManager.response)
  (saved_msg : option Z) : world :=
  let keyword :=
    match BotManager.detected_keyword response_data with
    | Some k => Py.or_else k "crisis"
    | None => "crisis"
    end in
  match saved_msg with
  | Some msg_id =>
      if msg_id =? 0 then w
      else with_db w
             (create_crisis_flag (db w) (participant_id (st w)) msg_id
                keyword).2
  | None => w
  end.

(** Lines 197 to 265: one user turn. *)
Definition send (fs : BotManager.files) (user_input : string) (w : world)
  : control * world :=
  let message_num := current_message_num (st w) + 1 in
  let w :=
    with_st w
      (push_message (st w)
         {| BotManager.role := "user"; BotManager.content := user_input |}
         message_num) in
  match save_message (db w) (participant_id (st w)) message_num "user"
          user_input None with
  | (Raise e, d) => (Raised e, with_db w d)
  | (Ok _, d) =>
      let w := with_db w d in
      match BotManager.get_bot_response fs (bot_manager w) (api_log w)
              (session_id (st w)) user_input message_num with
      | (Raise e, bm, log) =>
          (Rerun, with_error (with_bot w bm log) (Some e))
      | (Ok response_data, bm, log) =>
          let w := with_bot w bm log in
          let bot_response := BotManager.bot_response response_data in
          let w :=
            with_st w
              (push_message (st w)
                 {| BotManager.role := "assistant";
                    BotManager.content := bot_response |}
                 message_num) in
          match save_message (db w) (participant_id (st w)) message_num
                  "bot" bot_response
                  (Some (BotManager.crisis_detected response_data)) with
          | (Raise e, d) => (Rerun, with_error (with_db w d) (Some e))
          | (Ok saved_msg, d) =>
              let w := with_db w d in
              (Rerun,
               if BotManager.crisis_detected response_data
               then flag_crisis w response_data saved_msg
               else w)
          end
      end
  end.

(** Stage 3: lines 120 to 265. *)
Definition active (fs : BotManager.files) (max_messages : Z)
  (input : page_input) (w : world) : control * world :=
  let w := rehydrate w in
  if current_message_num (st w) >=? max_messages then close_conversation w
  else
    match user_input input with
    | Some text => if Py.truthy text then send fs text w else (Returned, w)
    | None => (Returned, w)
    end.

(** One run of [main], on the manager [initialize_app] produced. *)
Definition main (fs : BotManager.files) (max_messages : Z)
  (input : page_input) (rnd : entropy) (w : world) : control * world :=
  let w := with_error w None in
  if show_welcome (st w) then
    if consent input then welcome rnd w else (Returned, w)
  else if conversation_complete (st w) then (Returned, w)
  else if conversation_active (st w) then active fs max_messages input w
  else (Returned, w).

(** Successive runs of the script. Each run starts from the manager
    [initialize_app] builds for it, on the page state, the store and the
    provider the earlier runs left. *)
Definition rerun (fs : BotManager.files) (max_messages : Z) (w : world)
  (step : BotManager.t * page_input * entropy) : world :=
  (main fs max_messages step.1.2 step.2
     (with_bot w step.1.1 (api_log w))).2.

Definition runs (fs : BotManager.files) (max_messages : Z)
  (steps : list (BotManager.t * page_input * entropy)) (w : world) : world :=
  fold_left (rerun fs max_messages) steps w.

(** The page is in stage 3: consent given, conversation open. *)
Definition chatting (s : session_state) : bool :=
  negb (show_welcome s) && negb (conversation_complete s)
  && conversation_active s.

(** The run receives a non-empty text from the chat input. *)
Definition is_user_turn (step : BotManager.t * page_input * entropy) : bool :=
  match user_input step.1.2 with
  | Some text => Py.truthy text
  | None => false
  end.

End Main.

Arguments world DB : clear implicits.

End App.

(** ** Serialized sign-ups *)

Module Study.
Import RandomAssignment.

(** Modelled from the spec: the persistence collaborator
    ([DatabaseManager.create_participant] and [get_statistics], not part of
    the sources). Creating a participant of variant [b] is what changes the
    distribution for the next call: the count of [b] and the total grow by
    one. *)
Definition create_participant (b : string) (stats : statistics) : statistics :=
  {| total_participants := total_participants stats + 1;
     bot_distribution :=
       <[b := default 0 (bot_distribution stats !! b) + 1]>
         (bot_distribution stats) |}.

(** One [assign_bot_type(method)] call per draw, each followed by the
    creation of the participant before the next call is made. *)
Fixpoint signups (method : string) (draws : list nat) (stats : statistics)
  : result statistics :=
  match draws with
  | [] => Ok stats
  | draw :: draws' =>
      bind (assign_bot_type method stats draw) (fun b =>
      signups method draws' (create_participant b stats))
  end.

(** The largest count minus the smallest one; 0 when there is no count. *)
Definition spread (distribution : gmap string Z) : Z :=
  let counts := (map_to_list distribution).*2 in
  match Py.max counts, Py.min counts with
  | Ok hi, Ok lo => hi - lo
  | _, _ => 0
  end.

Definition all_zero (distribution : gmap string Z) : Prop :=
  map_Forall (λ _ c, c = 0) distribution.

#[global] Instance all_zero_dec (distribution : gmap string Z)
  : Decision (all_zero distribution).
Proof.
  unfold all_zero. apply map_Forall_dec. intros b c. simpl. apply _.
Defined.

(** The distribution a study with the four variants of [bot_types] has when
    its participants were assigned in rotation: every variant was given
    [total / 4] times, and the first [total mod 4] variants once more. *)
Definition rotation (total : Z) : gmap string Z :=
  let q := total / 4 in
  let r := total mod 4 in
  list_to_map
    [("emotional", q + (if 0 <? r then 1 else 0));
     ("cognitive", q + (if 1 <? r then 1 else 0));
     ("motivational", q + (if 2 <? r then 1 else 0));
     ("neutral", q)].

Definition in_rotation (stats : statistics) : bool :=
  (0 <=? total_participants stats)
  && bool_decide (bot_distribution stats = rotation (total_participants stats)).

(** No count exceeds another by more than one. *)
Definition balanced (distribution : gmap string Z) : Prop :=
  ∀ b1 b2 c1 c2,
    distribution !! b1 = Some c1 → distribution !! b2 = Some c2 → c1 ≤ c2 + 1.

End Study.

(** ** Concrete studies, managers and pages used to exercise the properties *)

Module Examples.

(** Four variants, nobody assigned yet. *)
Definition fresh_study : RandomAssignment.statistics :=
  {| RandomAssignment.total_participants := 0;
     RandomAssignment.bot_distribution :=
       list_to_map [("emotional", 0); ("cognitive", 0);
                    ("motivational", 0); ("neutral", 0)] |}.

(** Five participants, all with the cognitive variant. *)
Definition skewed_study : RandomAssignment.statistics :=
  {| RandomAssignment.total_participants := 5;
     RandomAssignment.bot_distribution :=
       list_to_map [("cognitive", 5); ("emotional", 0);
                    ("motivational", 0); ("control", 0)] |}.

(** Three variants at 3 participants, one at 2. *)
Definition lagging_study : RandomAssignment.statistics :=
  {| RandomAssignment.total_participants := 11;
     RandomAssignment.bot_distribution :=
       list_to_map [("emotional", 3); ("cognitive", 3);
                    ("motivational", 2); ("neutral", 3)] |}.

(** A detector with one keyword, found anywhere in the message. *)
Fixpoint contains (keyword text : string) : bool :=
  String.prefix keyword text
  || match text with
     | EmptyString => false
     | String _ text' => contains keyword text'
     end.

Definition detector : BotManager.CrisisDetector :=
  {| BotManager.check_message := λ text,
       if contains "end my life" text
       then Ok (true, Some "end my life") else Ok (false, None);
     BotManager.get_crisis_response :=
       Some (Ok "You are not alone. Please call or text 988.") |}.

(** A provider that answers, and one that is down. *)
Definition answering
  : list BotManager.Request.t → BotManager.Request.t → result (option string) :=
  λ _ _, Ok (Some "  That sounds hard. Tell me more.  ").

Definition down
  : list BotManager.Request.t → BotManager.Request.t → result (option string) :=
  λ _ _, Raise (Exception "Connection error.").

Definition disk : BotManager.files :=
  list_to_map
    [("config/app_config.yaml", Ok "conversation: {max_messages: 3}");
     ("config/emotional_empathy_prompt.txt", Ok "Respond with warmth. ")].

(** The manager [__init__] builds on [disk] (see [manager_init]). *)
Definition manager
  (client : list BotManager.Request.t → BotManager.Request.t
            → result (option string)) : BotManager.t :=
  {| BotManager.model := "gpt-4";
     BotManager.temperature := 0.5%float;
     BotManager.max_tokens := 1024;
     BotManager.app_cfg_path := Some "config/app_config.yaml";
     BotManager.crisis_text_path := None;
     BotManager.prompts :=
       list_to_map [("cognitive", ""); ("emotional", "Respond with warmth.");
                    ("motivational", ""); ("control", "")];
     BotManager.bot_types := ["cognitive"; "emotional"; "motivational"; "control"];
     BotManager.sessions := ∅;
     BotManager.crisis := Some detector;
     BotManager._client := client |}.

(** A manager as [__init__] builds it where no configuration file exists:
    no prompt texts and no detector. *)
Definition unconfigured
  (client : list BotManager.Request.t → BotManager.Request.t
            → result (option string)) : BotManager.t :=
  {| BotManager.model := "gpt-4";
     BotManager.temperature := 0.5%float;
     BotManager.max_tokens := 1024;
     BotManager.app_cfg_path := None;
     BotManager.crisis_text_path := None;
     BotManager.prompts :=
       list_to_map [("cognitive", ""); ("emotional", "");
                    ("motivational", ""); ("control", "")];
     BotManager.bot_types := ["cognitive"; "emotional"; "motivational"; "control"];
     BotManager.sessions := ∅;
     BotManager.crisis := None;
     BotManager._client := client |}.


(** A detector that finds the keyword but has no response of its own, a
    disk with a crisis file, and the example manager with that detector:
    once without a crisis file path, once with it. *)
Definition silent_detector : BotManager.CrisisDetector :=
  {| BotManager.check_message := BotManager.check_message detector;
     BotManager.get_crisis_response := None |}.

Definition crisis_disk : BotManager.files :=
  <["config/crisis_response.txt" := Ok "  Please call or text 988 now.
"]> disk.

Definition with_detector (self : BotManager.t)
  (d : BotManager.CrisisDetector) (path : option string) : BotManager.t :=
  {| BotManager.model := BotManager.model self;
     BotManager.temperature := BotManager.temperature self;
     BotManager.max_tokens := BotManager.max_tokens self;
     BotManager.app_cfg_path := BotManager.app_cfg_path self;
     BotManager.crisis_text_path := path;
     BotManager.prompts := BotManager.prompts self;
     BotManager.bot_types := BotManager.bot_types self;
     BotManager.sessions := BotManager.sessions self;
     BotManager.crisis := Some d;
     BotManager._client := BotManager._client self |}.



(** The same manager after one [create_new_session], whose draw picks the
    emotional variant. *)
Definition session_id : string := "3f2a9c1e-5b7d-4e8a-9c1f-0a1b2c3d4e5f".

Definition started
  (client : list BotManager.Request.t → BotManager.Request.t
            → result (option string)) : BotManager.t :=
  (BotManager.create_new_session (manager client) session_id
     "a1b2c3d4-0000-4000-8000-000000000000" 1).2.

(** A store that keeps the calls it receives and numbers the saved rows. *)
Inductive db_event : Type :=
| Participant (participant_id bot_type : string) (prolific_id : option string)
| Message (participant_id : string) (message_num : Z)
    (sender content : string) (contains_crisis_keyword : option bool)
| Completed (participant_id : string)
| CrisisFlag (participant_id : string) (message_id : Z) (keyword : string).

#[global] Instance log_db : App.DatabaseManager (list db_event) :=
  {| App.create_participant d pid bot pr :=
       (Ok (), d ++ [Participant pid bot pr]);
     App.save_message d pid num sender content flag :=
       (Ok (Some (Z.of_nat (length d) + 1)),
        d ++ [Message pid num sender content flag]);
     App.mark_participant_completed d pid := (Ok (), d ++ [Completed pid]);
     App.create_crisis_flag d pid msg_id kw :=
       (Ok (), d ++ [CrisisFlag pid msg_id kw]) |}.

(** The page of a participant who has just consented, on a manager that
    holds the session. *)
Definition page
  (client : list BotManager.Request.t → BotManager.Request.t
            → result (option string)) : App.world (list db_event) :=
  {| App.st :=
       {| App.show_welcome := false;
          App.conversation_active := true;
          App.conversation_complete := false;
          App.session_id := session_id;
          App.participant_id := "PA1B2C3D4";
          App.bot_type := "emotional";
          App.messages := [];
          App.current_message_num := 0;
          App.prolific_id := None |};
     App.bot_manager := started client;
     App.api_log := [];
     App.db := [Participant "PA1B2C3D4" "emotional" None];
     App.error_shown := None |}.

(** Calls on a handler with a cap of 3: one conversation, three user
    messages and two bot messages between them. *)
Definition handler_calls : list ConversationHandler.call :=
  [ConversationHandler.StartConversation "s1" "P001" "emotional" 100;
   ConversationHandler.AddMessage "s1" "user" "hello" 101;
   ConversationHandler.AddMessage "s1" "bot" "hi there" 102;
   ConversationHandler.AddMessage "s1" "user" "bad day" 103;
   ConversationHandler.AddMessage "s1" "bot" "tell me more" 104;
   ConversationHandler.AddMessage "s1" "user" "thanks" 105].

Definition handler_messages : list ConversationHandler.message :=
  [{| ConversationHandler.sender := "user";
      ConversationHandler.content := "hello";
      ConversationHandler.timestamp := 101 |};
   {| ConversationHandler.sender := "bot";
      ConversationHandler.content := "hi there";
      ConversationHandler.timestamp := 102 |};
   {| ConversationHandler.sender := "user";
      ConversationHandler.content := "bad day";
      ConversationHandler.timestamp := 103 |};
   {| ConversationHandler.sender := "bot";
      ConversationHandler.content := "tell me more";
      ConversationHandler.timestamp := 104 |};
   {| ConversationHandler.sender := "user";
      ConversationHandler.content := "thanks";
      ConversationHandler.timestamp := 105 |}].

(** The conversation those calls leave. *)
Definition handler_state : ConversationHandler.State.t :=
  {| ConversationHandler.State.session_id := "s1";
     ConversationHandler.State.participant_id := "P001";
     ConversationHandler.State.bot_type := "emotional";
     ConversationHandler.State.current_message_num := 3;
     ConversationHandler.State.max_messages := 3;
     ConversationHandler.State.started_at := 100;
     ConversationHandler.State.is_active := false;
     ConversationHandler.State.is_complete := true;
     ConversationHandler.State.messages := handler_messages;
     ConversationHandler.State.ended_at := None;
     ConversationHandler.State.end_reason := None |}.

(** The conversation after the first user message and its answer. *)
Definition handler_midway : ConversationHandler.State.t :=
  default handler_state
    (ConversationHandler.conversations
       (ConversationHandler.run (ConversationHandler.__init__ 3)
          (take 3 handler_calls)) !! "s1").

(** The conversation just after [start_conversation]. *)
Definition handler_start : ConversationHandler.State.t :=
  (ConversationHandler.start_conversation (ConversationHandler.__init__ 3)
     "s1" "P001" "emotional" 100).1.

(** Runs of the page script in which the participant sends a text; each run
    starts from a manager that holds no session. *)
Definition user_run (text : string)
  : BotManager.t * App.page_input * App.entropy :=
  (manager answering,
   {| App.consent := false; App.user_input := Some text |},
   {| App.uuid1 := ""; App.uuid2 := ""; App.draw := 0 |}).

Definition three_turns : list (BotManager.t * App.page_input * App.entropy) :=
  [user_run "hello"; user_run "bad day"; user_run "thanks"].

(** The example page after three turns and the run that closes it. *)
Definition finished_page : App.world (list db_event) :=
  App.rerun disk 3 (App.runs disk 3 three_turns (page answering))
    (user_run "one more").

(** The example page after a first message that was short-circuited. *)
Definition page_after_crisis : App.world (list db_event) :=
  App.rerun disk 3 (page answering) (user_run "I want to end my life").

(** The page of a visitor who has not consented yet. *)
Definition welcome_page : App.world (list db_event) :=
  {| App.st :=
       {| App.show_welcome := true;
          App.conversation_active := false;
          App.conversation_complete := false;
          App.session_id := "";
          App.participant_id := "";
          App.bot_type := "";
          App.messages := [];
          App.current_message_num := 0;
          App.prolific_id := Some "5f1c" |};
     App.bot_manager := manager answering;
     App.api_log := [];
     App.db := [];
     App.error_shown := None |}.

Definition consenting : App.page_input :=
  {| App.consent := true; App.user_input := None |}.

Definition fresh_ids : App.entropy :=
  {| App.uuid1 := session_id;
     App.uuid2 := "a1b2c3d4-0000-4000-8000-000000000000";
     App.draw := 1 |}.

End Examples.

(** * Properties *)

(** ** Python primitives *)

Section PyFacts.

Lemma fold_min_spec (xs : list Z) (a : Z) :
  fold_left Z.min xs a ∈ a :: xs ∧ ∀ x, x ∈ a :: xs → fold_left Z.min xs a ≤ x.
Proof.
  revert a. induction xs as [|y ys IH]; intros a; simpl.
  - split; [left|]. intros x Hx. apply list_elem_of_singleton in Hx. lia.
  - destruct (IH (Z.min a y)) as [Hin Hle]. split.
    + apply elem_of_cons in Hin as [Heq|Hin].
      * rewrite Heq. destruct (Z.min_spec a y) as [[_ ->]|[_ ->]].
        -- left.
        -- right; left.
      * right; right; exact Hin.
    + intros x Hx.
      assert (Hm : fold_left Z.min ys (Z.min a y) ≤ Z.min a y)
        by (apply Hle; left).
      apply elem_of_cons in Hx as [->|Hx]; [lia|].
      apply elem_of_cons in Hx as [->|Hx]; [lia|].
      apply Hle. right; exact Hx.
Qed.

Lemma fold_max_spec (xs : list Z) (a : Z) :
  fold_left Z.max xs a ∈ a :: xs ∧ ∀ x, x ∈ a :: xs → x ≤ fold_left Z.max xs a.
Proof.
  revert a. induction xs as [|y ys IH]; intros a; simpl.
  - split; [left|]. intros x Hx. apply list_elem_of_singleton in Hx. lia.
  - destruct (IH (Z.max a y)) as [Hin Hle]. split.
    + apply elem_of_cons in Hin as [Heq|Hin].
      * rewrite Heq. destruct (Z.max_spec a y) as [[_ ->]|[_ ->]].
        -- right; left.
        -- left.
      * right; right; exact Hin.
    + intros x Hx.
      assert (Hm : Z.max a y ≤ fold_left Z.max ys (Z.max a y))
        by (apply Hle; left).
      apply elem_of_cons in Hx as [->|Hx]; [lia|].
      apply elem_of_cons in Hx as [->|Hx]; [lia|].
      apply Hle. right; exact Hx.
Qed.

Lemma min_spec (xs : list Z) (m : Z) :
  Py.min xs = Ok m → m ∈ xs ∧ ∀ x, x ∈ xs → m ≤ x.
Proof.
  destruct xs as [|a xs]; simpl; [discriminate|].
  intros [= <-]. apply fold_min_spec.
Qed.

Lemma max_spec (xs : list Z) (m : Z) :
  Py.max xs = Ok m → m ∈ xs ∧ ∀ x, x ∈ xs → x ≤ m.
Proof.
  destruct xs as [|a xs]; simpl; [discriminate|].
  intros [= <-]. apply fold_max_spec.
Qed.

Lemma min_total (xs : list Z) : xs ≠ [] → ∃ m, Py.min xs = Ok m.
Proof. destruct xs; [done|]. simpl. eauto. Qed.

Lemma choice_elem {A} (draw : nat) (xs : list A) (x : A) :
  Py.choice draw xs = Ok x → x ∈ xs.
Proof.
  unfold Py.choice. destruct (xs !! _) eqn:E; [|discriminate].
  intros [= <-]. eapply list_elem_of_lookup_2, E.
Qed.

Lemma choice_total {A} (draw : nat) (xs : list A) :
  xs ≠ [] → ∃ x, Py.choice draw xs = Ok x.
Proof.
  intros Hne. unfold Py.choice.
  destruct (lookup_lt_is_Some_2 xs (draw mod length xs)%nat) as [x ->]; [|eauto].
  apply Nat.mod_upper_bound. destruct xs; [done|simpl; lia].
Qed.

Lemma choice_nil {A} (draw : nat) :
  Py.choice draw (@nil A) = Raise (IndexError "Cannot choose from an empty sequence").
Proof. reflexivity. Qed.

Lemma last_n_suffix {A} (n : nat) (xs : list A) :
  xs = take (length xs - n) xs ++ Py.last_n n xs.
Proof. unfold Py.last_n. symmetry. apply take_drop. Qed.

Lemma last_n_length {A} (n : nat) (xs : list A) :
  length (Py.last_n n xs) = Nat.min n (length xs).
Proof. unfold Py.last_n. rewrite length_drop. lia. Qed.

Lemma last_n_short {A} (n : nat) (xs : list A) :
  (length xs ≤ n)%nat → Py.last_n n xs = xs.
Proof.
  intros Hle. unfold Py.last_n.
  replace (length xs - n)%nat with 0%nat by lia. reflexivity.
Qed.

Lemma last_n_idemp {A} (n : nat) (xs : list A) :
  Py.last_n n (Py.last_n n xs) = Py.last_n n xs.
Proof. apply last_n_short. rewrite last_n_length. lia. Qed.

End PyFacts.

(** ** Balanced assignment *)

Section Balance.
Import RandomAssignment Study.

(** The variant [_assign_equal_distribution] returns is a key of the
    distribution whose count is the least of all counts. *)
Lemma assign_equal_spec (stats : statistics) (draw : nat) (b : string) :
  _assign_equal_distribution stats draw = Ok b →
  ∃ c, bot_distribution stats !! b = Some c
       ∧ ∀ b' c', bot_distribution stats !! b' = Some c' → c ≤ c'.
Proof.
  unfold _assign_equal_distribution, get_bot_distribution.
  destruct (Py.min _) as [m|e] eqn:Hmin; simpl; [|discriminate].
  intros Hch. apply choice_elem in Hch.
  unfold bot_types_with_min in Hch.
  apply list_elem_of_fmap in Hch as [[b0 c] [-> Hin]].
  apply list_elem_of_filter in Hin as [Hc Hin]. simpl in Hc. subst c.
  apply elem_of_map_to_list in Hin.
  exists m. split; [exact Hin|].
  intros b' c' Hb'. apply min_spec in Hmin as [_ Hle]. apply Hle.
  apply list_elem_of_fmap. exists (b', c'). split; [done|].
  by apply elem_of_map_to_list.
Qed.

(** On a distribution with at least one key it returns a variant. *)
Lemma assign_equal_total (stats : statistics) (draw : nat) :
  bot_distribution stats ≠ ∅ →
  ∃ b, _assign_equal_distribution stats draw = Ok b.
Proof.
  intros Hne. unfold _assign_equal_distribution, get_bot_distribution.
  destruct (Py.min _) as [m|e] eqn:Hmin; simpl.
  - apply choice_total. unfold bot_types_with_min.
    apply min_spec in Hmin as [Hin _].
    apply list_elem_of_fmap in Hin as [[b c] [-> Hin]].
    intros Hnil. apply fmap_nil_inv in Hnil.
    assert (Hf : (b, c) ∈ filter (λ bc : string * Z, bc.2 = c)
                   (map_to_list (bot_distribution stats))).
    { apply list_elem_of_filter. split; [done|exact Hin]. }
    simpl in Hnil. rewrite Hnil in Hf. by apply not_elem_of_nil in Hf.
  - exfalso. destruct (min_total ((map_to_list (bot_distribution stats)).*2))
      as [m Hm]; [|congruence].
    intros Hnil. apply fmap_nil_inv in Hnil.
    by apply map_to_list_empty_iff in Hnil.
Qed.

Lemma all_zero_balanced (d : gmap string Z) : all_zero d → balanced d.
Proof.
  intros Hz b1 b2 c1 c2 H1 H2.
  rewrite (Hz _ _ H1 : c1 = 0), (Hz _ _ H2 : c2 = 0). lia.
Qed.

Lemma balanced_step (stats : statistics) (draw : nat) (b : string) :
  balanced (bot_distribution stats) →
  _assign_equal_distribution stats draw = Ok b →
  balanced (bot_distribution (create_participant b stats)).
Proof.
  intros Hbal Hb. apply assign_equal_spec in Hb as (c & Hc & Hmin).
  unfold create_participant; simpl. rewrite Hc; simpl.
  intros b1 b2 c1 c2 H1 H2.
  destruct (decide (b = b1)) as [<-|N1], (decide (b = b2)) as [<-|N2].
  - rewrite lookup_insert_eq in H1, H2. simplify_eq. lia.
  - rewrite lookup_insert_eq in H1. rewrite lookup_insert_ne in H2 by done.
    simplify_eq. specialize (Hmin _ _ H2). lia.
  - rewrite lookup_insert_eq in H2. rewrite lookup_insert_ne in H1 by done.
    simplify_eq. specialize (Hbal _ _ _ _ H1 Hc). lia.
  - rewrite lookup_insert_ne in H1, H2 by done.
    exact (Hbal _ _ _ _ H1 H2).
Qed.

Lemma create_participant_nonempty (b : string) (stats : statistics) :
  bot_distribution (create_participant b stats) ≠ ∅.
Proof. unfold create_participant; simpl. apply insert_non_empty. Qed.

Lemma balanced_spread (d : gmap string Z) : balanced d → spread d ≤ 1.
Proof.
  intros Hbal. unfold spread.
  destruct (Py.max _) as [hi|] eqn:Hhi; [|lia].
  destruct (Py.min _) as [lo|] eqn:Hlo; [|lia].
  apply max_spec in Hhi as [Hhi _]. apply min_spec in Hlo as [Hlo _].
  apply list_elem_of_fmap in Hhi as [[b1 c1] [-> H1]].
  apply list_elem_of_fmap in Hlo as [[b2 c2] [-> H2]].
  apply elem_of_map_to_list in H1. apply elem_of_map_to_list in H2.
  simpl. specialize (Hbal _ _ _ _ H1 H2). lia.
Qed.

Lemma signups_balanced (draws : list nat) (stats stats' : statistics) :
  balanced (bot_distribution stats) →
  signups "equal_distribution" draws stats = Ok stats' →
  balanced (bot_distribution stats').
Proof.
  revert stats. induction draws as [|draw draws IH]; intros stats Hbal; simpl.
  - by intros [= <-].
  - unfold assign_bot_type. rewrite decide_True by done.
    destruct (_assign_equal_distribution stats draw) as [b|e] eqn:Hb; simpl;
      [|discriminate].
    apply IH. by eapply balanced_step.
Qed.

Lemma signups_total (draws : list nat) (stats : statistics) :
  bot_distribution stats ≠ ∅ →
  ∃ stats', signups "equal_distribution" draws stats = Ok stats'.
Proof.
  revert stats. induction draws as [|draw draws IH]; intros stats Hne; simpl.
  - eauto.
  - unfold assign_bot_type. rewrite decide_True by done.
    destruct (assign_equal_total stats draw Hne) as [b ->]. simpl.
    apply IH, create_participant_nonempty.
Qed.

(** C3. Serialized [assign_bot_type("equal_distribution")] calls that start
    from a distribution whose counts are all zero, each followed by the
    creation of the participant, keep the largest count within one of the
    smallest at every point of the sequence; and on a distribution with at
    least one variant every call of the sequence returns. *)
Theorem equal_distribution_spread (stats : statistics) (draws : list nat)
  (n : nat) :
  all_zero (bot_distribution stats) →
  (∀ stats', signups "equal_distribution" (take n draws) stats = Ok stats' →
             spread (bot_distribution stats') ≤ 1)
  ∧ (bot_distribution stats ≠ ∅ →
     ∃ stats', signups "equal_distribution" (take n draws) stats = Ok stats'
               ∧ spread (bot_distribution stats') ≤ 1).
Proof.
  intros Hz. apply all_zero_balanced in Hz.
  assert (Hsafe : ∀ stats',
    signups "equal_distribution" (take n draws) stats = Ok stats' →
    spread (bot_distribution stats') ≤ 1).
  { intros stats' Hrun. eapply balanced_spread, signups_balanced; eauto. }
  split; [exact Hsafe|].
  intros Hne. destruct (signups_total (take n draws) stats Hne) as [stats' Hrun].
  exists stats'. split; [exact Hrun|by apply Hsafe].
Qed.

(** C9. On an empty distribution the call raises: [min] has no count to
    work on. *)
Theorem equal_distribution_empty_raises (total : Z) (draw : nat) :
  assign_bot_type "equal_distribution"
    {| total_participants := total; bot_distribution := ∅ |} draw
  = Raise (ValueError "min() arg is an empty sequence").
Proof.
  unfold assign_bot_type. rewrite decide_True by done.
  unfold _assign_equal_distribution, get_bot_distribution; simpl.
  by rewrite map_to_list_empty.
Qed.

End Balance.

(** A run of six sign-ups on a fresh study of four variants. *)
Lemma equal_distribution_spread_witness :
  Study.all_zero (RandomAssignment.bot_distribution Examples.fresh_study)
  ∧ ∃ stats',
      Study.signups "equal_distribution" (take 6 [0; 1; 2; 3; 5; 7; 11]%nat)
        Examples.fresh_study = Ok stats'
      ∧ Study.spread (RandomAssignment.bot_distribution stats') ≤ 1.
Proof.
  assert (Hz : Study.all_zero
                 (RandomAssignment.bot_distribution Examples.fresh_study)).
  { apply (bool_decide_unpack _). vm_compute. exact I. }
  split; [exact Hz|].
  apply (equal_distribution_spread Examples.fresh_study
           [0; 1; 2; 3; 5; 7; 11]%nat 6 Hz).
  vm_compute. discriminate.
Defined.

(** ** The message counter and the cap of [ConversationHandler] *)

Section Handler.
Import ConversationHandler.

Lemma add_message_found (self : t) (sid sender content : string) (now : Z)
  (c : State.t) :
  conversations self !! sid = Some c →
  let c' :=
    check_limit (max_messages self)
      (count_message sender
         (append_message
            {| sender := sender; content := content; timestamp := now |} c)) in
  add_message self sid sender content now
  = (Ok c', {| max_messages := max_messages self;
               conversations := <[sid := c']> (conversations self) |}).
Proof. intros Hc. unfold add_message. by rewrite Hc. Qed.

Lemma check_limit_num (limit : Z) (c : State.t) :
  State.current_message_num (check_limit limit c) = State.current_message_num c.
Proof. unfold check_limit. by destruct (_ >=? _). Qed.

Lemma check_limit_max (limit : Z) (c : State.t) :
  State.max_messages (check_limit limit c) = State.max_messages c.
Proof. unfold check_limit. by destruct (_ >=? _). Qed.

Lemma add_message_num (self : t) (sid sender content : string) (now : Z)
  (c : State.t) :
  conversations self !! sid = Some c →
  ∃ c', add_message self sid sender content now
        = (Ok c', {| max_messages := max_messages self;
                     conversations := <[sid := c']> (conversations self) |})
      ∧ State.current_message_num c'
        = State.current_message_num c
          + (if decide (sender = "user") then 1 else 0).
Proof.
  intros Hc. eexists. split; [by apply add_message_found|].
  rewrite check_limit_num. simpl. case_decide; lia.
Qed.

Lemma user_turns_cons (m : message) (ms : list message) :
  user_turns (m :: ms)
  = (if decide (sender m = "user") then 1 else 0) + user_turns ms.
Proof.
  unfold user_turns. rewrite filter_cons.
  case_decide; simpl length; lia.
Qed.

Lemma user_turns_nonneg (ms : list message) : 0 ≤ user_turns ms.
Proof. unfold user_turns. lia. Qed.

Lemma add_messages_cons (self : t) (sid : string) (m : message)
  (ms : list message) :
  add_messages self sid (m :: ms)
  = add_messages (add_message self sid (sender m) (content m) (timestamp m)).2
      sid ms.
Proof. reflexivity. Qed.

Lemma add_messages_num (ms : list message) (self : t) (sid : string)
  (c : State.t) :
  conversations self !! sid = Some c →
  ∃ c', conversations (add_messages self sid ms) !! sid = Some c'
      ∧ State.current_message_num c'
        = State.current_message_num c + user_turns ms.
Proof.
  revert self c. induction ms as [|m ms IH]; intros self c Hc.
  - exists c. split; [exact Hc|]. unfold user_turns; simpl. lia.
  - rewrite add_messages_cons.
    destruct (add_message_num self sid (sender m) (content m) (timestamp m) c Hc)
      as (c1 & -> & Hn1). simpl.
    destruct (IH {| max_messages := max_messages self;
                    conversations := <[sid := c1]> (conversations self) |} c1)
      as (c' & Hc' & Hn'); [simpl; by rewrite lookup_insert_eq|].
    exists c'. split; [exact Hc'|]. rewrite Hn', Hn1, user_turns_cons. lia.
Qed.

Lemma step_max (self : t) (cl : call) :
  max_messages (step self cl) = max_messages self.
Proof.
  destruct cl; simpl; try reflexivity.
  - unfold add_message. by destruct (conversations self !! _).
  - unfold end_conversation. by destruct (conversations self !! _).
Qed.

Lemma capped_step (self : t) (cl : call) :
  1 ≤ max_messages self → capped self → capped (step self cl).
Proof.
  intros Hmax Hcap. destruct cl as [sid pid bot now|sid snd txt now|sid why now|sid];
    simpl.
  - intros sid' c'. simpl. rewrite lookup_insert. case_decide.
    + intros [= <-]. simpl. split; [done|]. split; [done|lia].
    + apply Hcap.
  - destruct (conversations self !! sid) as [c|] eqn:Hc.
    + rewrite (add_message_found _ _ _ _ _ _ Hc). simpl.
      intros sid' c'. simpl. rewrite lookup_insert. case_decide; [|apply Hcap].
      intros [= <-]. destruct (Hcap _ _ Hc) as [Hm Hiff].
      rewrite check_limit_max. split; [exact Hm|].
      unfold check_limit. simpl.
      destruct (_ >=? max_messages self) eqn:Hge; simpl.
      * split; [lia|done].
      * rewrite Hiff. case_decide; lia.
    + unfold add_message. rewrite Hc. exact Hcap.
  - unfold end_conversation.
    destruct (conversations self !! sid) as [c|] eqn:Hc; [|exact Hcap].
    intros sid' c'. simpl. rewrite lookup_insert. case_decide; [|apply Hcap].
    intros [= <-]. simpl. destruct (Hcap _ _ Hc) as [Hm Hiff].
    split; [exact Hm|]. rewrite Hm.
    destruct (_ >=? max_messages self) eqn:Hge.
    * split; [lia|done].
    * rewrite Hiff. lia.
  - intros sid' c'. unfold cleanup_conversation. simpl.
    rewrite lookup_delete. case_decide; [done|apply Hcap].
Qed.

Lemma capped_run (cs : list call) (self : t) :
  1 ≤ max_messages self → capped self → capped (run self cs).
Proof.
  revert self. induction cs as [|cl cs IH]; intros self Hmax Hcap; [exact Hcap|].
  simpl. apply IH; [by rewrite step_max|by apply capped_step].
Qed.

Lemma capped_init (limit : Z) : capped (__init__ limit).
Proof. intros sid c. unfold __init__. simpl. by rewrite lookup_empty. Qed.

Lemma run_max (cs : list call) (self : t) :
  max_messages (run self cs) = max_messages self.
Proof.
  revert self. induction cs as [|cl cs IH]; intros self; [done|].
  simpl. fold (run (step self cl) cs). by rewrite IH, step_max.
Qed.

End Handler.

(** ** One run of the page script *)

Section Page.
Import App.
Context {DB : Type} `{DatabaseManager DB}.

Ltac split_matches :=
  repeat match goal with
  | |- context [match ?x with _ => _ end] => destruct x eqn:?; simpl
  end.

Lemma flag_crisis_st (w : world DB) (r : BotManager.response) (saved : option Z) :
  st (flag_crisis w r saved) = st w.
Proof. unfold flag_crisis. split_matches; reflexivity. Qed.

Lemma flag_crisis_bot (w : world DB) (r : BotManager.response) (saved : option Z) :
  bot_manager (flag_crisis w r saved) = bot_manager w
  ∧ api_log (flag_crisis w r saved) = api_log w.
Proof. unfold flag_crisis. split_matches; done. Qed.

Lemma rehydrate_st (w : world DB) : st (rehydrate w) = st w.
Proof. unfold rehydrate. split_matches; reflexivity. Qed.

Lemma rehydrate_api_log (w : world DB) : api_log (rehydrate w) = api_log w.
Proof. unfold rehydrate. split_matches; reflexivity. Qed.

(** A user turn raises the counter by exactly one, whatever happens to the
    message afterwards: crisis or not, saved or not, answered or not. *)
Lemma send_counter (fs : BotManager.files) (text : string) (w : world DB) :
  current_message_num (st (send fs text w).2) = current_message_num (st w) + 1.
Proof.
  unfold send. split_matches; rewrite ?flag_crisis_st; reflexivity.
Qed.

Lemma send_flags (fs : BotManager.files) (text : string) (w : world DB) :
  let s' := st (send fs text w).2 in
  show_welcome s' = show_welcome (st w)
  ∧ conversation_active s' = conversation_active (st w)
  ∧ conversation_complete s' = conversation_complete (st w).
Proof.
  unfold send. split_matches; rewrite ?flag_crisis_st; done.
Qed.

(** The first message a user turn adds to the page is the user's. *)
Lemma send_messages (fs : BotManager.files) (text : string) (w : world DB) :
  ∃ rest, messages (st (send fs text w).2)
          = messages (st w)
            ++ {| BotManager.role := "user"; BotManager.content := text |}
               :: rest.
Proof.
  unfold send. split_matches; rewrite ?flag_crisis_st; simpl;
    rewrite <- ?app_assoc; eauto.
Qed.

(** At the cap the run stops before the input is read: nothing is added to
    the page, the counter stays, the provider is not called, and the
    conversation is marked complete. *)
Lemma active_at_cap (fs : BotManager.files) (max_messages : Z)
  (input : page_input) (w : world DB) :
  max_messages ≤ current_message_num (st w) →
  let r := active fs max_messages input w in
  r.1 ≠ Returned
  ∧ messages (st r.2) = messages (st w)
  ∧ current_message_num (st r.2) = current_message_num (st w)
  ∧ api_log r.2 = api_log w
  ∧ conversation_active (st r.2) = false
  ∧ conversation_complete (st r.2) = true.
Proof.
  intros Hcap. unfold active. rewrite rehydrate_st.
  destruct (_ >=? _) eqn:Hge; [|lia].
  unfold close_conversation. rewrite rehydrate_st. simpl.
  split_matches; rewrite ?rehydrate_api_log; done.
Qed.

(** Below the cap a non-empty input is a user turn. *)
Lemma active_below_cap (fs : BotManager.files) (max_messages : Z)
  (input : page_input) (text : string) (w : world DB) :
  current_message_num (st w) < max_messages →
  user_input input = Some text → Py.truthy text = true →
  active fs max_messages input w = send fs text (rehydrate w).
Proof.
  intros Hlt Hin Htext. unfold active. rewrite rehydrate_st.
  destruct (_ >=? _) eqn:Hge; [lia|]. by rewrite Hin, Htext.
Qed.

(** Once the conversation is marked complete a run changes nothing but the
    error banner. *)
Lemma main_complete (fs : BotManager.files) (max_messages : Z)
  (input : page_input) (rnd : entropy) (w : world DB) :
  show_welcome (st w) = false → conversation_complete (st w) = true →
  main fs max_messages input rnd w = (Returned, with_error w None).
Proof. intros Hw Hc. unfold main. simpl. by rewrite Hw, Hc. Qed.

Lemma main_active (fs : BotManager.files) (max_messages : Z)
  (input : page_input) (rnd : entropy) (w : world DB) :
  show_welcome (st w) = false → conversation_complete (st w) = false →
  conversation_active (st w) = true →
  main fs max_messages input rnd w
  = active fs max_messages input (with_error w None).
Proof. intros Hw Hc Ha. unfold main. simpl. by rewrite Hw, Hc, Ha. Qed.

Lemma chatting_spec (s : session_state) :
  chatting s = true ↔
  show_welcome s = false ∧ conversation_complete s = false
  ∧ conversation_active s = true.
Proof.
  unfold chatting.
  destruct (show_welcome s), (conversation_complete s), (conversation_active s);
    simpl; intuition congruence.
Qed.

(** A user turn below the cap leaves the page in stage 3 and raises the
    counter by one. *)
Lemma rerun_user_turn (fs : BotManager.files) (max_messages : Z)
  (w : world DB) (step : BotManager.t * page_input * entropy) :
  chatting (st w) = true → is_user_turn step = true →
  current_message_num (st w) < max_messages →
  chatting (st (rerun fs max_messages w step)) = true
  ∧ current_message_num (st (rerun fs max_messages w step))
    = current_message_num (st w) + 1.
Proof.
  intros Hchat Hturn Hlt. unfold is_user_turn in Hturn.
  destruct (user_input step.1.2) as [text|] eqn:Hin; [|discriminate].
  apply chatting_spec in Hchat as (Hw & Hc & Ha).
  unfold rerun. rewrite main_active by done.
  rewrite (active_below_cap _ _ _ text) by done.
  destruct (send_flags fs text
              (rehydrate (with_error (with_bot w step.1.1 (api_log w)) None)))
    as (Fw & Fa & Fc).
  rewrite rehydrate_st in Fw, Fa, Fc. simpl in Fw, Fa, Fc.
  split.
  - apply chatting_spec. by rewrite Fw, Fa, Fc.
  - rewrite send_counter, rehydrate_st. reflexivity.
Qed.

Lemma runs_user_turns (fs : BotManager.files) (max_messages : Z)
  (steps : list (BotManager.t * page_input * entropy)) (w : world DB) :
  chatting (st w) = true → forallb is_user_turn steps = true →
  current_message_num (st w) + Z.of_nat (length steps) ≤ max_messages →
  chatting (st (runs fs max_messages steps w)) = true
  ∧ current_message_num (st (runs fs max_messages steps w))
    = current_message_num (st w) + Z.of_nat (length steps).
Proof.
  revert w. induction steps as [|step steps IH]; intros w Hchat Hall Hle.
  - simpl. split; [exact Hchat|lia].
  - simpl in Hall. apply andb_true_iff in Hall as [Hturn Hall].
    simpl length in *.
    destruct (rerun_user_turn fs max_messages w step Hchat Hturn) as [Hc1 Hn1];
      [lia|].
    simpl. fold (runs fs max_messages steps (rerun fs max_messages w step)).
    destruct (IH (rerun fs max_messages w step)) as [Hc Hn]; [done|done|lia|].
    split; [exact Hc|]. rewrite Hn, Hn1. lia.
Qed.

(** At the cap a run, whatever the input, is stopped by the check: nothing
    reaches the page, the counter or the provider, and every later run
    shows the completion page. *)
Lemma rerun_at_cap (fs : BotManager.files) (max_messages : Z)
  (w : world DB) (step : BotManager.t * page_input * entropy) :
  chatting (st w) = true →
  max_messages ≤ current_message_num (st w) →
  let w' := rerun fs max_messages w step in
  messages (st w') = messages (st w)
  ∧ current_message_num (st w') = current_message_num (st w)
  ∧ api_log w' = api_log w
  ∧ chatting (st w') = false
  ∧ conversation_complete (st w') = true.
Proof.
  intros Hchat Hcap. apply chatting_spec in Hchat as (Hw & Hc & Ha).
  unfold rerun. rewrite main_active by done.
  destruct (active_at_cap fs max_messages step.1.2
              (with_error (with_bot w step.1.1 (api_log w)) None))
    as (_ & Hm & Hn & Hl & Hact & Hcomp); [done|].
  simpl in *. rewrite Hm, Hn, Hl. repeat split; try done.
  unfold chatting. rewrite Hcomp. by rewrite andb_false_r.
Qed.

End Page.

(** ** The session registry *)

Section Registry.
Import BotManager.

Lemma or_else_empty (s : string) : Py.or_else s "" = s.
Proof. by destruct s. Qed.

Lemma truthy_nonempty (s : string) : Py.truthy s = true ↔ s ≠ "".
Proof. destruct s; simpl; split; congruence. Qed.

(** [__init__] on the example disk gives the example manager. *)
Example manager_init client :
  __init__ Examples.disk "gpt-4" 0.5%float 1024
    (Some (λ _, Ok Examples.detector)) (Ok client)
  = Ok (Examples.manager client).
Proof. reflexivity. Qed.

Example started_session client :
  sessions (Examples.started client) !! Examples.session_id
  = Some {| participant_id := "PA1B2C3D4"; bot_type := "emotional";
            history := [] |}.
Proof. reflexivity. Qed.

(** A turn that is not short-circuited: one request goes out, carrying the
    messages built from the session, and the user turn and the reply, in
    this order, are appended to the history of the session. *)
Lemma get_bot_response_clear (fs : files) (self : t)
  (api_log : list Request.t) (sid msg : string) (n : Z) (sess : session) :
  sessions self !! sid = Some sess →
  (crisis_check self msg).1 = false →
  let request := request_for self (build_messages self sess msg) in
  let reply := (_call_model self api_log (build_messages self sess msg)).1 in
  get_bot_response fs self api_log sid msg n
  = (Ok {| bot_response := reply; crisis_detected := false;
           detected_keyword := None |},
     set_sessions self
       (<[sid := {| participant_id := participant_id sess;
                    bot_type := bot_type sess;
                    history :=
                      (history sess ++ [{| role := "user"; content := msg |}])
                      ++ [{| role := "assistant"; content := reply |}] |}]>
          (sessions self)),
     api_log ++ [request]).
Proof.
  intros Hs Hclear. unfold get_bot_response. rewrite Hs.
  destruct (crisis_check self msg) as [is_crisis kw]. simpl in Hclear.
  subst is_crisis. reflexivity.
Qed.

Lemma call_model_ok (self : t) (api_log : list Request.t)
  (messages : list turn) (content : option string) :
  _client self api_log (request_for self messages) = Ok content →
  (_call_model self api_log messages).1 = Py.strip (default "" content).
Proof.
  intros Hok. unfold _call_model.
  rewrite Hok. simpl. by rewrite or_else_empty.
Qed.

Lemma call_model_raise (self : t) (api_log : list Request.t)
  (messages : list turn) (e : exn) :
  _client self api_log (request_for self messages) = Raise e →
  (_call_model self api_log messages).1 = error_prefix +:+ str e.
Proof.
  intros Hr. unfold _call_model.
  by rewrite Hr.
Qed.

(** A session put back with the last 20 turns of a history gives the same
    messages for the next turn as the session that kept the whole history. *)
Lemma build_messages_rehydrated (self : t) (sess : session) (pid msg : string) :
  build_messages self
    {| participant_id := pid; bot_type := bot_type sess;
       history := Py.last_n 20 (history sess) |} msg
  = build_messages self sess msg.
Proof. unfold build_messages. simpl. by rewrite last_n_idemp. Qed.

End Registry.

(** ** Turns handled by the registry *)

Section Turns.
Import BotManager.

Lemma crisis_text_without_response (fs : files) (self : t) :
  (∀ detector text, crisis self = Some detector →
                    get_crisis_response detector ≠ Some (Ok text)) →
  _crisis_text fs self
  = match crisis_text_path self with
    | None => default_crisis_text
    | Some p =>
        match fs !! p with
        | Some (Ok content) =>
            if decide (p = "" ∨ Py.strip content = "")
            then default_crisis_text else Py.strip content
        | _ => default_crisis_text
        end
    end.
Proof.
  intros Hnone.
  assert (Hfall : _crisis_text fs self
                  = Py.or_else
                      (_read_text fs
                         match crisis_text_path self with
                         | Some p => if Py.truthy p then [p] else []
                         | None => []
                         end) default_crisis_text).
  { unfold _crisis_text. destruct (crisis self) as [d|] eqn:Hd; [|reflexivity].
    destruct (get_crisis_response d) as [[text|e]|] eqn:Hr;
      [|reflexivity|reflexivity].
    by destruct (Hnone d text). }
  rewrite Hfall. destruct (crisis_text_path self) as [p|]; [|reflexivity].
  destruct p as [|a p'].
  { simpl. destruct (fs !! "") as [[content|e]|]; reflexivity. }
  simpl. unfold _read_text, _first_existing_path.
  rewrite filter_cons, filter_nil.
  destruct (fs !! String a p') as [[content|e]|] eqn:Hp.
  - rewrite decide_True by (split; [done|by eexists]). simpl. rewrite Hp.
    unfold Py.or_else. destruct (Py.strip content) as [|b c'] eqn:Hstrip; simpl.
    + first [reflexivity | by rewrite decide_True by (by right)].
    + first [reflexivity
            | rewrite decide_False; [reflexivity|]; intros [?|?]; discriminate].
  - rewrite decide_True by (split; [done|by eexists]). simpl. by rewrite Hp.
  - rewrite decide_False; [reflexivity|]. intros [_ [x Hx]]. discriminate.
Qed.

Lemma default_crisis_text_not_empty : default_crisis_text ≠ "".
Proof. discriminate. Qed.

(** C1. When the detector is configured and reports a crisis for the user
    message of a registered session, [get_bot_response] answers with the
    configured safety text: the detector's own response when it supplies
    one; and otherwise, never an empty text, the stripped text of the crisis
    file when the manager has a crisis file path that reads as a non-blank
    text, and the built-in safety text when there is no path, no readable
    file, or a blank one. The answer is marked as a crisis with the keyword
    found, no request is made to the provider, and the manager, and so the
    history of the session, is left as it was. *)
Theorem crisis_short_circuit (fs : files) (self : t) (api_log : list Request.t)
  (sid msg : string) (n : Z) (sess : session) (detector : CrisisDetector)
  (keyword : option string) :
  sessions self !! sid = Some sess →
  crisis self = Some detector →
  check_message detector msg = Ok (true, keyword) →
  ∃ reply self' api_log',
    get_bot_response fs self api_log sid msg n = (Ok reply, self', api_log')
    ∧ bot_response reply = _crisis_text fs self
    ∧ (∀ text, get_crisis_response detector = Some (Ok text) →
               bot_response reply = text)
    ∧ ((∀ text, get_crisis_response detector ≠ Some (Ok text)) →
       bot_response reply ≠ ""
       ∧ (crisis_text_path self = None →
          bot_response reply = default_crisis_text)
       ∧ (∀ p, crisis_text_path self = Some p →
            bot_response reply
            = match fs !! p with
              | Some (Ok content) =>
                  if decide (p = "" ∨ Py.strip content = "")
                  then default_crisis_text else Py.strip content
              | _ => default_crisis_text
              end))
    ∧ crisis_detected reply = true
    ∧ detected_keyword reply = keyword
    ∧ api_log' = api_log
    ∧ self' = self
    ∧ history <$> sessions self' !! sid = Some (history sess).
Proof.
  intros Hs Hd Hm. unfold get_bot_response, crisis_check.
  rewrite Hs, Hd, Hm. do 3 eexists. split; [reflexivity|]. simpl.
  split; [reflexivity|]. split; [|split; [|repeat split; by rewrite Hs]].
  - intros text Htext. unfold _crisis_text. by rewrite Hd, Htext.
  - intros Hnone.
    assert (Hall : ∀ d text, crisis self = Some d →
                             get_crisis_response d ≠ Some (Ok text)).
    { intros d text Hd'. rewrite Hd in Hd'. injection Hd' as <-. apply Hnone. }
    rewrite (crisis_text_without_response fs self Hall).
    split; [|split].
    + destruct (crisis_text_path self) as [p|];
        [|apply default_crisis_text_not_empty].
      destruct (fs !! p) as [[content|e]|];
        try apply default_crisis_text_not_empty.
      destruct (decide _) as [_|Hno]; [apply default_crisis_text_not_empty|].
      intros Hempty. apply Hno. by right.
    + by intros ->.
    + by intros p ->.
Qed.

(** C2, as the code has it. When the provider raises [e] on a turn that is
    not short-circuited, [_call_model] turns the failure into the reply
    [error_prefix +:+ str e]; [get_bot_response] returns normally with that
    reply, the request is logged, and the user turn followed by the error
    reply is appended to the history of the session. *)
Theorem completion_failure_is_a_reply (fs : files) (self : t)
  (api_log : list Request.t) (sid msg : string) (n : Z) (sess : session)
  (e : exn) :
  sessions self !! sid = Some sess →
  (crisis_check self msg).1 = false →
  _client self api_log (request_for self (build_messages self sess msg))
  = Raise e →
  ∃ self',
    get_bot_response fs self api_log sid msg n
    = (Ok {| bot_response := error_prefix +:+ str e;
             crisis_detected := false;
             detected_keyword := None |},
       self',
       api_log ++ [request_for self (build_messages self sess msg)])
    ∧ history <$> sessions self' !! sid
      = Some (history sess
              ++ [{| role := "user"; content := msg |};
                  {| role := "assistant";
                     content := error_prefix +:+ str e |}])
    ∧ ∀ sid', sid' ≠ sid → sessions self' !! sid' = sessions self !! sid'.
Proof.
  intros Hs Hclear Hraise. eexists. split.
  - rewrite (get_bot_response_clear fs self api_log sid msg n sess Hs Hclear).
    rewrite (call_model_raise _ _ _ _ Hraise). reflexivity.
  - simpl. rewrite lookup_insert_eq. simpl. split.
    + by rewrite <- app_assoc.
    + intros sid' Hne. by rewrite lookup_insert_ne.
Qed.


(** C8. [get_bot_response] raises the session-not-found error, a
    [ValueError] whose text is "Session not found: " followed by the id,
    exactly for the ids that are not in the registry, and then changes
    nothing; for an id that is registered it returns a reply. *)
Theorem session_not_found (fs : files) (self : t) (api_log : list Request.t)
  (sid msg : string) (n : Z) :
  (sessions self !! sid = None →
     get_bot_response fs self api_log sid msg n
     = (Raise (ValueError ("Session not found: " +:+ sid)), self, api_log))
  ∧ (is_Some (sessions self !! sid) →
     ∃ reply self' api_log',
       get_bot_response fs self api_log sid msg n = (Ok reply, self', api_log')).
Proof.
  split.
  - intros Hnone. unfold get_bot_response. by rewrite Hnone.
  - intros [sess Hs]. unfold get_bot_response. rewrite Hs.
    destruct (crisis_check self msg) as [[] kw].
    + eauto.
    + destruct (_call_model _ _ _). eauto.
Qed.

(** C10. [end_session] on an id that is not registered returns the manager
    unchanged; on a registered id it removes that entry of the registry and
    no other, and touches nothing else of the manager. *)
Theorem end_session_removes_one (self : t) (sid : string) (completed : bool) :
  (sessions self !! sid = None → end_session self sid completed = self)
  ∧ (is_Some (sessions self !! sid) →
     end_session self sid completed
     = set_sessions self (delete sid (sessions self))
     ∧ sessions (end_session self sid completed) !! sid = None
     ∧ ∀ sid', sid' ≠ sid →
         sessions (end_session self sid completed) !! sid'
         = sessions self !! sid').
Proof.
  unfold end_session. split.
  - by intros ->.
  - intros [sess ->]. simpl. split; [reflexivity|]. split.
    + apply lookup_delete_eq.
    + intros sid' Hne. by apply lookup_delete_ne.
Qed.

End Turns.

(** ** The properties on the example manager *)

(** A message with the keyword, sent to the example session: with the
    detector's own response, with no response and no crisis file, and with
    no response and a crisis file. *)
Lemma crisis_short_circuit_witness :
  let self := Examples.started Examples.answering in
  let silent :=
    Examples.with_detector self Examples.silent_detector None in
  let filed :=
    Examples.with_detector self Examples.silent_detector
      (Some "config/crisis_response.txt") in
  BotManager.crisis self = Some Examples.detector
  ∧ BotManager.check_message Examples.detector "I want to end my life"
    = Ok (true, Some "end my life")
  ∧ (∃ reply,
       BotManager.get_bot_response Examples.disk self [] Examples.session_id
         "I want to end my life" 1
       = (Ok reply, self, [])
       ∧ BotManager.bot_response reply
         = "You are not alone. Please call or text 988.")
  ∧ (∃ reply,
       BotManager.get_bot_response Examples.disk silent [] Examples.session_id
         "I want to end my life" 1
       = (Ok reply, silent, [])
       ∧ BotManager.bot_response reply = BotManager.default_crisis_text)
  ∧ (∃ reply,
       BotManager.get_bot_response Examples.crisis_disk filed []
         Examples.session_id "I want to end my life" 1
       = (Ok reply, filed, [])
       ∧ BotManager.bot_response reply = "Please call or text 988 now.").
Proof.
  intros self silent filed.
  assert (Hs : BotManager.sessions self !! Examples.session_id
               = Some {| BotManager.participant_id := "PA1B2C3D4";
                         BotManager.bot_type := "emotional";
                         BotManager.history := [] |}) by reflexivity.
  assert (Hd : BotManager.crisis self = Some Examples.detector) by reflexivity.
  assert (Hm : BotManager.check_message Examples.detector "I want to end my life"
               = Ok (true, Some "end my life")) by reflexivity.
  assert (Hno : ∀ text, BotManager.get_crisis_response Examples.silent_detector
                        ≠ Some (Ok text)) by (intros text; discriminate).
  split; [exact Hd|]. split; [exact Hm|]. split; [|split].
  - destruct (crisis_short_circuit Examples.disk self [] Examples.session_id
                "I want to end my life" 1 _ _ _ Hs Hd Hm)
      as (reply & self' & log' & Hrun & _ & Htext & _ & _ & _ & -> & -> & _).
    exists reply. split; [exact Hrun|]. by apply Htext.
  - destruct (crisis_short_circuit Examples.disk silent [] Examples.session_id
                "I want to end my life" 1 _ Examples.silent_detector _
                Hs eq_refl Hm)
      as (reply & self' & log' & Hrun & _ & _ & Hfall & _ & _ & -> & -> & _).
    exists reply. split; [exact Hrun|].
    exact (proj1 (proj2 (Hfall Hno)) eq_refl).
  - destruct (crisis_short_circuit Examples.crisis_disk filed []
                Examples.session_id "I want to end my life" 1 _
                Examples.silent_detector _ Hs eq_refl Hm)
      as (reply & self' & log' & Hrun & _ & _ & Hfall & _ & _ & -> & -> & _).
    exists reply. split; [exact Hrun|].
    exact (proj2 (proj2 (Hfall Hno)) "config/crisis_response.txt" eq_refl).
Defined.

(** The provider is down when the example session sends a message. *)
Lemma completion_failure_is_a_reply_witness :
  let self := Examples.started Examples.down in
  (BotManager.crisis_check self "I had a long day").1 = false
  ∧ ∃ self',
      (BotManager.get_bot_response Examples.disk self [] Examples.session_id
         "I had a long day" 1).1.2 = self'
      ∧ BotManager.history <$> BotManager.sessions self' !! Examples.session_id
        = Some [{| BotManager.role := "user";
                   BotManager.content := "I had a long day" |};
                {| BotManager.role := "assistant";
                   BotManager.content :=
                     BotManager.error_prefix +:+ "Connection error." |}].
Proof.
  intros self.
  assert (Hs : BotManager.sessions self !! Examples.session_id
               = Some {| BotManager.participant_id := "PA1B2C3D4";
                         BotManager.bot_type := "emotional";
                         BotManager.history := [] |}) by reflexivity.
  assert (Hc : (BotManager.crisis_check self "I had a long day").1 = false)
    by reflexivity.
  split; [exact Hc|].
  destruct (completion_failure_is_a_reply Examples.disk self []
              Examples.session_id "I had a long day" 1 _
              (Exception "Connection error.") Hs Hc eq_refl)
    as (self' & Hrun & Hhist & _).
  exists self'. split; [by rewrite Hrun|exact Hhist].
Defined.

(** C2, as the specification states it, fails: with the provider down, the
    history of the example session is not what it was before the turn, and
    the counter of the page is not what it was before the turn. *)
Lemma failure_isolation_counterexample :
  let self := Examples.started Examples.down in
  let page := Examples.page Examples.down in
  (∀ log request,
     BotManager._client self log request = Raise (Exception "Connection error."))
  ∧ BotManager.sessions
      (BotManager.get_bot_response Examples.disk self [] Examples.session_id
         "I had a long day" 1).1.2 !! Examples.session_id
    ≠ BotManager.sessions self !! Examples.session_id
  ∧ App.current_message_num
      (App.st (App.main Examples.disk 3
                 {| App.consent := false;
                    App.user_input := Some "I had a long day" |}
                 {| App.uuid1 := ""; App.uuid2 := ""; App.draw := 0 |}
                 page).2)
    ≠ App.current_message_num (App.st page).
Proof.
  intros self page. split; [reflexivity|]. split.
  - vm_compute. discriminate.
  - vm_compute. discriminate.
Qed.


(** An id the example manager does not hold, and the one it holds. *)
Lemma session_not_found_witness :
  let self := Examples.started Examples.answering in
  BotManager.sessions self !! "no-such-session" = None
  ∧ is_Some (BotManager.sessions self !! Examples.session_id)
  ∧ BotManager.get_bot_response Examples.disk self [] "no-such-session" "hello" 1
    = (Raise (ValueError "Session not found: no-such-session"), self, [])
  ∧ ∃ reply self' api_log',
      BotManager.get_bot_response Examples.disk self [] Examples.session_id
        "hello" 1 = (Ok reply, self', api_log').
Proof.
  intros self.
  assert (Hn : BotManager.sessions self !! "no-such-session" = None)
    by reflexivity.
  assert (Hp : is_Some (BotManager.sessions self !! Examples.session_id))
    by (eexists; reflexivity).
  split; [exact Hn|]. split; [exact Hp|]. split.
  - exact (proj1 (session_not_found Examples.disk self [] "no-such-session"
                    "hello" 1) Hn).
  - exact (proj2 (session_not_found Examples.disk self [] Examples.session_id
                    "hello" 1) Hp).
Defined.

(** Ending an unknown session and the registered one. *)
Lemma end_session_removes_one_witness :
  let self := Examples.started Examples.answering in
  BotManager.sessions self !! "no-such-session" = None
  ∧ is_Some (BotManager.sessions self !! Examples.session_id)
  ∧ BotManager.end_session self "no-such-session" true = self
  ∧ BotManager.sessions (BotManager.end_session self Examples.session_id true)
      !! Examples.session_id = None.
Proof.
  intros self.
  assert (Hn : BotManager.sessions self !! "no-such-session" = None)
    by reflexivity.
  assert (Hp : is_Some (BotManager.sessions self !! Examples.session_id))
    by (eexists; reflexivity).
  split; [exact Hn|]. split; [exact Hp|]. split.
  - exact (proj1 (end_session_removes_one self "no-such-session" true) Hn).
  - exact (proj1 (proj2 (proj2 (end_session_removes_one self
                                  Examples.session_id true) Hp))).
Defined.

(** ** Creation of sessions *)

Section Creation.
Import BotManager.

(** C5, as the code has it. [create_new_session] draws the variant with
    [random.choice] from the manager's own list of four bot types, the one
    at position [draw mod 4]; it reads no distribution. The session is
    registered under the first identifier with that variant and an empty
    history, and every one of the four variants is the outcome of some
    draw. *)
Theorem create_new_session_draws_uniformly (self : t) (uuid1 uuid2 : string)
  (draw : nat) :
  bot_types self = ["cognitive"; "emotional"; "motivational"; "control"] →
  (∃ b, ["cognitive"; "emotional"; "motivational"; "control"]
          !! (draw mod 4)%nat = Some b
      ∧ create_new_session self uuid1 uuid2 draw
        = (Ok {| ns_session_id := uuid1;
                 ns_participant_id := "P" +:+ Py.upper (substring 0 8 uuid2);
                 ns_bot_type := b |},
           set_sessions self
             (<[uuid1 := {| participant_id :=
                              "P" +:+ Py.upper (substring 0 8 uuid2);
                            bot_type := b;
                            history := [] |}]> (sessions self))))
  ∧ ∀ b, b ∈ bot_types self →
      ∃ draw', ns_bot_type <$> (match (create_new_session self uuid1 uuid2 draw').1
                                with Ok r => Some r | Raise _ => None end)
               = Some b.
Proof.
  intros Htypes. split.
  - unfold create_new_session, Py.choice. rewrite Htypes.
    change (length ["cognitive"; "emotional"; "motivational"; "control"])
      with 4%nat.
    destruct (lookup_lt_is_Some_2
                ["cognitive"; "emotional"; "motivational"; "control"]
                (draw mod 4)%nat) as [b Hb].
    { change (draw mod 4 < 4)%nat. apply Nat.mod_upper_bound. lia. }
    exists b. split; [exact Hb|]. by rewrite Hb.
  - intros b Hb. apply list_elem_of_lookup in Hb as [i Hi].
    assert (Hlt : (i < 4)%nat).
    { apply lookup_lt_Some in Hi. by rewrite Htypes in Hi. }
    exists i. unfold create_new_session, Py.choice.
    rewrite Htypes in *.
    change (length ["cognitive"; "emotional"; "motivational"; "control"])
      with 4%nat.
    rewrite Nat.mod_small by exact Hlt. by rewrite Hi.
Qed.

End Creation.

(** The second of the four variants on the example manager. *)
Lemma create_new_session_draws_uniformly_witness :
  BotManager.bot_types (Examples.manager Examples.answering)
  = ["cognitive"; "emotional"; "motivational"; "control"]
  ∧ ∃ b, ["cognitive"; "emotional"; "motivational"; "control"] !! (5 mod 4)%nat
         = Some b
       ∧ BotManager.ns_bot_type
         <$> (match (BotManager.create_new_session
                       (Examples.manager Examples.answering)
                       Examples.session_id "a1b2c3d4-0000" 5).1
              with Ok r => Some r | Raise _ => None end)
         = Some b.
Proof.
  assert (Ht : BotManager.bot_types (Examples.manager Examples.answering)
               = ["cognitive"; "emotional"; "motivational"; "control"])
    by reflexivity.
  split; [exact Ht|].
  destruct (proj1 (create_new_session_draws_uniformly
                     (Examples.manager Examples.answering)
                     Examples.session_id "a1b2c3d4-0000" 5 Ht))
    as (b & Hb & Hrun).
  exists b. split; [exact Hb|]. by rewrite Hrun.
Defined.

(** C5, as the specification states it, fails: in a study where five
    participants have the cognitive variant and nobody has another one, the
    balancer returns the cognitive variant for no draw, and
    [create_new_session] assigns it on draw 0. *)
Lemma balanced_creation_counterexample :
  (∀ draw, RandomAssignment.assign_bot_type "equal_distribution"
             Examples.skewed_study draw ≠ Ok "cognitive")
  ∧ (BotManager.create_new_session (Examples.manager Examples.answering)
       Examples.session_id "a1b2c3d4-0000" 0).1
    = Ok {| BotManager.ns_session_id := Examples.session_id;
            BotManager.ns_participant_id := "PA1B2C3D4";
            BotManager.ns_bot_type := "cognitive" |}.
Proof.
  split; [|reflexivity].
  intros draw Hb. unfold RandomAssignment.assign_bot_type in Hb.
  rewrite decide_True in Hb by done.
  apply assign_equal_spec in Hb as (c & Hc & Hmin).
  assert (c = 5) as -> by (vm_compute in Hc; congruence).
  specialize (Hmin "emotional" 0 eq_refl). lia.
Qed.

(** ** The counter and the cap *)

Section Counter.
Import ConversationHandler.
Context {DB : Type} `{App.DatabaseManager DB}.

(** C4. [add_message] on a conversation of the handler raises its counter by
    one for a user message and leaves it for any other sender, so after any
    run of [add_message] calls the counter has grown by the number of user
    messages and never gone down; and a user turn of the page raises the
    page counter by exactly one, whether the message is short-circuited as a
    crisis, answered by the provider, or fails. *)
Theorem message_num_per_user_turn (self : t) (sid : string) (c : State.t)
  (ms : list message) (fs : BotManager.files) (text : string)
  (w : App.world DB) :
  conversations self !! sid = Some c →
  (∀ sender content now,
     ∃ c', (add_message self sid sender content now).1 = Ok c'
         ∧ conversations (add_message self sid sender content now).2 !! sid
           = Some c'
         ∧ State.current_message_num c'
           = State.current_message_num c
             + (if decide (sender = "user") then 1 else 0))
  ∧ (∃ c', conversations (add_messages self sid ms) !! sid = Some c'
         ∧ State.current_message_num c'
           = State.current_message_num c + user_turns ms
         ∧ State.current_message_num c ≤ State.current_message_num c')
  ∧ App.current_message_num (App.st (App.send fs text w).2)
    = App.current_message_num (App.st w) + 1.
Proof.
  intros Hc. split; [|split].
  - intros sender content now.
    destruct (add_message_num self sid sender content now c Hc)
      as (c' & -> & Hn).
    exists c'. simpl. by rewrite lookup_insert_eq.
  - destruct (add_messages_num ms self sid c Hc) as (c' & Hc' & Hn).
    exists c'. split; [exact Hc'|]. split; [exact Hn|].
    pose proof (user_turns_nonneg ms). lia.
  - apply send_counter.
Qed.

(** C6. In a handler whose cap is at least 1, whatever calls were made, a
    conversation is flagged complete exactly when its counter has reached the
    cap. With a cap of 3, a conversation that was started is complete exactly
    when three user messages, or more, were added. On the page, with a cap of
    3, three user turns bring the counter to 3, and the run after them is
    stopped by the check made before input is taken: whatever the input, no
    message and no count is added, no request goes to the provider, and the
    conversation is marked complete. *)
Theorem session_cap (limit : Z) (cs : list call) (sid : string) (c : State.t)
  (sid3 pid bot : string) (now : Z) (ms : list message)
  (fs : BotManager.files) (w : App.world DB)
  (steps : list (BotManager.t * App.page_input * App.entropy))
  (fourth : BotManager.t * App.page_input * App.entropy) :
  1 ≤ limit →
  conversations (run (__init__ limit) cs) !! sid = Some c →
  App.chatting (App.st w) = true →
  App.current_message_num (App.st w) = 0 →
  forallb App.is_user_turn steps = true →
  length steps = 3%nat →
  (State.is_complete c = true ↔ limit ≤ State.current_message_num c)
  ∧ (∃ c3,
       conversations
         (add_messages (start_conversation (__init__ 3) sid3 pid bot now).2
            sid3 ms) !! sid3 = Some c3
       ∧ State.current_message_num c3 = user_turns ms
       ∧ (State.is_complete c3 = true ↔ 3 ≤ user_turns ms))
  ∧ (let w3 := App.runs fs 3 steps w in
     let w4 := App.rerun fs 3 w3 fourth in
     App.current_message_num (App.st w3) = 3
     ∧ App.messages (App.st w4) = App.messages (App.st w3)
     ∧ App.current_message_num (App.st w4) = 3
     ∧ App.api_log w4 = App.api_log w3
     ∧ App.conversation_complete (App.st w4) = true
     ∧ App.chatting (App.st w4) = false).
Proof.
  intros Hlimit Hc Hchat Hzero Hturns Hlen. split; [|split].
  - pose proof (capped_run cs (__init__ limit) Hlimit (capped_init limit)) as Hcap.
    destruct (Hcap _ _ Hc) as [_ Hiff]. by rewrite run_max in Hiff.
  - set (h0 := (start_conversation (__init__ 3) sid3 pid bot now).2).
    assert (Hcap0 : capped h0).
    { apply (capped_step (__init__ 3) (StartConversation sid3 pid bot now));
        [simpl; lia|apply capped_init]. }
    assert (Hs0 : conversations h0 !! sid3
                  = Some (start_conversation (__init__ 3) sid3 pid bot now).1).
    { unfold h0. simpl. by rewrite lookup_insert_eq. }
    destruct (add_messages_num ms h0 sid3 _ Hs0) as (c3 & Hc3 & Hn3).
    simpl in Hn3. exists c3. split; [exact Hc3|]. split; [lia|].
    assert (Hcap : capped (add_messages h0 sid3 ms)).
    { unfold add_messages. apply capped_run; [simpl; lia|exact Hcap0]. }
    destruct (Hcap _ _ Hc3) as [_ Hiff].
    unfold add_messages in Hiff. rewrite run_max in Hiff. simpl in Hiff.
    rewrite Hiff. lia.
  - intros w3 w4.
    destruct (runs_user_turns fs 3 steps w Hchat Hturns) as [Hchat3 Hn3];
      [rewrite Hzero, Hlen; simpl; lia|].
    fold w3 in Hchat3, Hn3. rewrite Hzero, Hlen in Hn3. simpl in Hn3.
    destruct (rerun_at_cap fs 3 w3 fourth Hchat3) as (Hm & Hn & Hl & Hch & Hco);
      [lia|].
    fold w4 in Hm, Hn, Hl, Hch, Hco.
    rewrite Hn. repeat split; done.
Qed.

End Counter.

(** Two more messages on the example conversation, and a user turn on the
    example page. *)
Lemma message_num_per_user_turn_witness :
  let self :=
    (ConversationHandler.start_conversation (ConversationHandler.__init__ 3)
       "s1" "P001" "emotional" 100).2 in
  ConversationHandler.conversations self !! "s1" = Some Examples.handler_start
  ∧ (∃ c', ConversationHandler.conversations
             (ConversationHandler.add_messages self "s1"
                Examples.handler_messages) !! "s1" = Some c'
         ∧ ConversationHandler.State.current_message_num c' = 3)
  ∧ App.current_message_num
      (App.st (App.send Examples.disk "I want to end my life"
                 (Examples.page Examples.answering)).2) = 1.
Proof.
  intros self.
  assert (Hc : ConversationHandler.conversations self !! "s1"
               = Some Examples.handler_start) by reflexivity.
  split; [exact Hc|].
  destruct (message_num_per_user_turn self "s1" Examples.handler_start
              Examples.handler_messages Examples.disk "I want to end my life"
              (Examples.page Examples.answering) Hc)
    as (_ & (c' & Hc' & Hn & _) & Hsend).
  split; [|exact Hsend].
  exists c'. split; [exact Hc'|exact Hn].
Defined.

(** The example conversation after three user messages, and a fourth text
    typed on the example page after three turns. *)
Lemma session_cap_witness :
  ConversationHandler.conversations
    (ConversationHandler.run (ConversationHandler.__init__ 3)
       Examples.handler_calls) !! "s1" = Some Examples.handler_state
  ∧ App.chatting (App.st (Examples.page Examples.answering)) = true
  ∧ forallb App.is_user_turn Examples.three_turns = true
  ∧ (ConversationHandler.State.is_complete Examples.handler_state = true
     ↔ 3 ≤ ConversationHandler.State.current_message_num Examples.handler_state)
  ∧ (let w3 := App.runs Examples.disk 3 Examples.three_turns
                 (Examples.page Examples.answering) in
     let w4 := App.rerun Examples.disk 3 w3 (Examples.user_run "one more") in
     App.current_message_num (App.st w3) = 3
     ∧ App.messages (App.st w4) = App.messages (App.st w3)
     ∧ App.api_log w4 = App.api_log w3).
Proof.
  assert (Hc : ConversationHandler.conversations
                 (ConversationHandler.run (ConversationHandler.__init__ 3)
                    Examples.handler_calls) !! "s1"
               = Some Examples.handler_state) by reflexivity.
  assert (Hchat : App.chatting (App.st (Examples.page Examples.answering))
                  = true) by reflexivity.
  assert (Hturns : forallb App.is_user_turn Examples.three_turns = true)
    by reflexivity.
  split; [exact Hc|]. split; [exact Hchat|]. split; [exact Hturns|].
  destruct (session_cap 3 Examples.handler_calls "s1" Examples.handler_state
              "s1" "P001" "emotional" 100 Examples.handler_messages
              Examples.disk (Examples.page Examples.answering)
              Examples.three_turns (Examples.user_run "one more")
              ltac:(lia) Hc Hchat eq_refl Hturns eq_refl)
    as (Hiff & _ & Hn3 & Hm & _ & Hl & _).
  split; [exact Hiff|]. split; [exact Hn3|]. split; [exact Hm|exact Hl].
Defined.


(** * Further properties of the code *)

(** ** The three assignment strategies *)

Section Strategies.
Import RandomAssignment Study.

Lemma sequential_cases (stats : statistics) :
  let r := total_participants stats mod 4 in
  (r = 0 ∧ _assign_sequential stats = Ok "emotional")
  ∨ (r = 1 ∧ _assign_sequential stats = Ok "cognitive")
  ∨ (r = 2 ∧ _assign_sequential stats = Ok "motivational")
  ∨ (r = 3 ∧ _assign_sequential stats = Ok "neutral").
Proof.
  intros r. unfold _assign_sequential.
  change (Z.of_nat (length bot_types)) with 4. fold r.
  assert (Hr : 0 ≤ r < 4) by (apply Z.mod_pos_bound; lia).
  assert (Hc : r = 0 ∨ r = 1 ∨ r = 2 ∨ r = 3) by lia.
  destruct Hc as [Hc|[Hc|[Hc|Hc]]]; rewrite Hc; simpl; tauto.
Qed.

(** X1. [_assign_sequential] never raises, whatever the total (negative ones
    included); it returns one of the four bot types, and two totals get the
    same variant exactly when they differ by a multiple of 4. *)
Theorem sequential_round_robin (s1 s2 : statistics) :
  (∃ b, _assign_sequential s1 = Ok b ∧ b ∈ bot_types)
  ∧ (_assign_sequential s1 = _assign_sequential s2
     ↔ (total_participants s1 - total_participants s2) mod 4 = 0).
Proof.
  destruct (sequential_cases s1) as [[H1 E1]|[[H1 E1]|[[H1 E1]|[H1 E1]]]];
    (split; [eexists; split; [exact E1|unfold bot_types; set_solver]|]);
    destruct (sequential_cases s2) as [[H2 E2]|[[H2 E2]|[[H2 E2]|[H2 E2]]]];
    rewrite E1, E2;
    (split; [intros Heq; try discriminate Heq|intros Hmod; try reflexivity; exfalso]);
    revert H1 H2; try revert Hmod; simpl;
    generalize (total_participants s1) (total_participants s2); intros t1 t2;
    Z.div_mod_to_equations; lia.
Qed.

(** X2. Whatever [_assign_equal_distribution] returns is a key of the
    distribution whose count no other count is below, so a variant that has
    no key in the distribution is never assigned; and when one key has a
    count strictly below all others, it is returned for every draw. *)
Theorem equal_distribution_picks_least (stats : statistics) (draw : nat)
  (least : string) (c : Z) :
  bot_distribution stats !! least = Some c →
  (∀ b' c', bot_distribution stats !! b' = Some c' → c ≤ c') →
  (∃ b, _assign_equal_distribution stats draw = Ok b
      ∧ bot_distribution stats !! b = Some c)
  ∧ ((∀ b' c', b' ≠ least → bot_distribution stats !! b' = Some c' → c < c') →
     _assign_equal_distribution stats draw = Ok least).
Proof.
  intros Hleast Hmin.
  assert (Hne : bot_distribution stats ≠ ∅).
  { intros Hempty. rewrite Hempty in Hleast. by rewrite lookup_empty in Hleast. }
  destruct (assign_equal_total stats draw Hne) as [b Hb].
  destruct (assign_equal_spec stats draw b Hb) as (cb & Hcb & Hle).
  assert (cb = c) as ->.
  { specialize (Hle _ _ Hleast). specialize (Hmin _ _ Hcb). lia. }
  split; [eauto|].
  intros Hstrict. destruct (decide (b = least)) as [->|Hdiff]; [exact Hb|].
  specialize (Hstrict _ _ Hdiff Hcb). lia.
Qed.

(** X3. The random strategy reads no statistics: for every draw it returns one
    of the four bot types, and each of them is returned for some draw. *)
Theorem random_strategy_ignores_statistics (s1 s2 : statistics) (draw : nat) :
  assign_bot_type "random" s1 draw = assign_bot_type "random" s2 draw
  ∧ (∃ b, assign_bot_type "random" s1 draw = Ok b ∧ b ∈ bot_types)
  ∧ ∀ b, b ∈ bot_types → ∃ draw', assign_bot_type "random" s1 draw' = Ok b.
Proof.
  unfold assign_bot_type. rewrite decide_False by done.
  rewrite decide_True by done. split; [reflexivity|]. split.
  - destruct (choice_total draw bot_types) as [b Hb]; [done|].
    exists b. split; [exact Hb|]. by eapply choice_elem.
  - intros b Hb. apply list_elem_of_lookup in Hb as [i Hi].
    exists i. unfold _assign_random, Py.choice.
    rewrite Nat.mod_small; [by rewrite Hi|].
    by apply lookup_lt_Some in Hi.
Qed.

Ltac known_lookups :=
  repeat (rewrite lookup_insert_eq
          || (rewrite (lookup_insert_ne _ "emotional") by done)
          || (rewrite (lookup_insert_ne _ "cognitive") by done)
          || (rewrite (lookup_insert_ne _ "motivational") by done)
          || (rewrite (lookup_insert_ne _ "neutral") by done)
          || rewrite lookup_empty).

Lemma rotation_lookup (total : Z) (b : string) (c : Z) :
  rotation total !! b = Some c →
  b ∈ bot_types ∧ total / 4 ≤ c ≤ total / 4 + 1.
Proof.
  unfold rotation, bot_types. simpl.
  destruct (decide (b = "emotional")) as [->|?];
    [|destruct (decide (b = "cognitive")) as [->|?];
      [|destruct (decide (b = "motivational")) as [->|?];
        [|destruct (decide (b = "neutral")) as [->|?]]]];
    known_lookups; intros [= <-]; (split; [set_solver|]);
    repeat match goal with |- context [if ?x then _ else _] => destruct x end;
    lia.
Qed.

Lemma rotation_balanced (total : Z) : balanced (rotation total).
Proof.
  intros b1 b2 c1 c2 H1 H2.
  apply rotation_lookup in H1 as [_ H1]. apply rotation_lookup in H2 as [_ H2].
  lia.
Qed.

Lemma rotation_step (total : Z) (dist : gmap string Z) (b : string) :
  dist = rotation total →
  _assign_sequential {| total_participants := total; bot_distribution := dist |}
  = Ok b →
  <[b := default 0 (dist !! b) + 1]> dist = rotation (total + 1).
Proof.
  intros -> Hb.
  destruct (sequential_cases
              {| total_participants := total; bot_distribution := rotation total |})
    as [[Hr E]|[[Hr E]|[[Hr E]|[Hr E]]]];
    simpl in Hr; rewrite E in Hb; injection Hb as <-.
  - assert ((total + 1) mod 4 = 1 ∧ (total + 1) / 4 = total / 4) as [M D]
      by (Z.div_mod_to_equations; lia).
    unfold rotation. rewrite M, D, Hr. simpl. known_lookups. simpl.
    apply map_eq; intros k.
    destruct (decide (k = "emotional")) as [->|?]; known_lookups; [f_equal; lia|].
    done.
  - assert ((total + 1) mod 4 = 2 ∧ (total + 1) / 4 = total / 4) as [M D]
      by (Z.div_mod_to_equations; lia).
    unfold rotation. rewrite M, D, Hr. simpl. known_lookups. simpl.
    apply map_eq; intros k.
    destruct (decide (k = "emotional")) as [->|?]; known_lookups; [f_equal; lia|].
    destruct (decide (k = "cognitive")) as [->|?]; known_lookups; [f_equal; lia|].
    done.
  - assert ((total + 1) mod 4 = 3 ∧ (total + 1) / 4 = total / 4) as [M D]
      by (Z.div_mod_to_equations; lia).
    unfold rotation. rewrite M, D, Hr. simpl. known_lookups. simpl.
    apply map_eq; intros k.
    destruct (decide (k = "emotional")) as [->|?]; known_lookups; [f_equal; lia|].
    destruct (decide (k = "cognitive")) as [->|?]; known_lookups; [f_equal; lia|].
    destruct (decide (k = "motivational")) as [->|?]; known_lookups;
      [f_equal; lia|].
    done.
  - assert ((total + 1) mod 4 = 0 ∧ (total + 1) / 4 = total / 4 + 1) as [M D]
      by (Z.div_mod_to_equations; lia).
    unfold rotation. rewrite M, D, Hr. simpl. known_lookups. simpl.
    apply map_eq; intros k.
    destruct (decide (k = "emotional")) as [->|?]; known_lookups; [f_equal; lia|].
    destruct (decide (k = "cognitive")) as [->|?]; known_lookups; [f_equal; lia|].
    destruct (decide (k = "motivational")) as [->|?]; known_lookups; [f_equal; lia|].
    destruct (decide (k = "neutral")) as [->|?]; known_lookups;
      [f_equal; lia|done].
Qed.

Lemma in_rotation_spec (stats : statistics) :
  in_rotation stats = true ↔
  0 ≤ total_participants stats
  ∧ bot_distribution stats = rotation (total_participants stats).
Proof.
  unfold in_rotation. rewrite andb_true_iff, Z.leb_le, bool_decide_eq_true.
  reflexivity.
Qed.

(** X4. Sign-ups with the sequential strategy on a study that was filled in
    rotation (an empty study of the four variants is one) all return, keep
    the study in rotation, and so keep the largest count within one of the
    smallest. *)
Theorem sequential_signups_rotate (stats : statistics) (draws : list nat) :
  in_rotation stats = true →
  ∃ stats',
    signups "sequential" draws stats = Ok stats'
    ∧ total_participants stats'
      = total_participants stats + Z.of_nat (length draws)
    ∧ in_rotation stats' = true
    ∧ spread (bot_distribution stats') ≤ 1.
Proof.
  revert stats. induction draws as [|draw draws IH]; intros stats Hrot.
  - exists stats. simpl. split; [done|]. split; [lia|]. split; [done|].
    apply in_rotation_spec in Hrot as [_ ->].
    apply balanced_spread, rotation_balanced.
  - simpl signups. unfold assign_bot_type.
    rewrite decide_False by done. rewrite decide_False by done.
    rewrite decide_True by done.
    assert (Hb : ∃ b, _assign_sequential stats = Ok b).
    { destruct (sequential_cases stats) as [[_ E]|[[_ E]|[[_ E]|[_ E]]]]; eauto. }
    destruct Hb as [b E]. rewrite E. simpl bind.
    apply in_rotation_spec in Hrot as [Hpos Hd].
    destruct (IH (create_participant b stats)) as (stats' & Hrun & Ht & Hr & Hs).
    { apply in_rotation_spec. unfold create_participant. simpl.
      split; [lia|]. apply rotation_step; [exact Hd|]. destruct stats; exact E. }
    exists stats'. split; [exact Hrun|]. split; [|done].
    rewrite Ht. unfold create_participant. simpl length. simpl. lia.
Qed.

End Strategies.

(** An empty study of the four variants, and seven sequential sign-ups. *)
Lemma sequential_signups_rotate_witness :
  Study.in_rotation Examples.fresh_study = true
  ∧ ∃ stats',
      Study.signups "sequential" [0; 0; 0; 0; 0; 0; 0]%nat Examples.fresh_study
      = Ok stats'
      ∧ RandomAssignment.total_participants stats' = 7
      ∧ Study.spread (RandomAssignment.bot_distribution stats') ≤ 1.
Proof.
  assert (Hrot : Study.in_rotation Examples.fresh_study = true)
    by (vm_compute; reflexivity).
  split; [exact Hrot|].
  destruct (sequential_signups_rotate Examples.fresh_study
              [0; 0; 0; 0; 0; 0; 0]%nat Hrot) as (stats' & Hrun & Ht & _ & Hs).
  exists stats'. split; [exact Hrun|]. split; [exact Ht|exact Hs].
Defined.

(** A study in which one variant is behind the others. *)
Lemma equal_distribution_picks_least_witness :
  RandomAssignment.bot_distribution Examples.lagging_study !! "motivational"
  = Some 2
  ∧ RandomAssignment._assign_equal_distribution Examples.lagging_study 7
    = Ok "motivational".
Proof.
  assert (Hl : RandomAssignment.bot_distribution Examples.lagging_study
               !! "motivational" = Some 2) by reflexivity.
  split; [exact Hl|].
  assert (Hk : ∀ b' c',
            RandomAssignment.bot_distribution Examples.lagging_study !! b'
            = Some c' → b' ∈ RandomAssignment.bot_types ∧ (b' = "motivational" ∨ 2 < c')).
  { intros b' c' Hb. apply elem_of_map_to_list in Hb.
    vm_compute in Hb. unfold RandomAssignment.bot_types.
    repeat (apply elem_of_cons in Hb as [[= -> ->]|Hb]; [split; [set_solver|]; (by left) || (right; lia)|]).
    by apply not_elem_of_nil in Hb. }
  apply (equal_distribution_picks_least Examples.lagging_study 7
           "motivational" 2 Hl).
  - intros b' c' Hb. destruct (Hk _ _ Hb) as [_ [->|Hlt]]; [|lia].
    rewrite Hl in Hb. injection Hb as <-. lia.
  - intros b' c' Hne Hb. destruct (Hk _ _ Hb) as [_ [->|Hlt]]; [done|exact Hlt].
Defined.

(** ** The life of a conversation in [ConversationHandler] *)

Section HandlerLife.
Import ConversationHandler.

Lemma closed_step (self : t) (cl : call) :
  closed_when_complete self → closed_when_complete (step self cl).
Proof.
  intros Hcl. destruct cl as [sid pid bot now|sid snd txt now|sid why now|sid];
    simpl.
  - intros sid' c'. simpl. rewrite lookup_insert. case_decide; [|apply Hcl].
    by intros [= <-].
  - destruct (conversations self !! sid) as [c|] eqn:Hc.
    + rewrite (add_message_found _ _ _ _ _ _ Hc). simpl.
      intros sid' c'. simpl. rewrite lookup_insert. case_decide; [|apply Hcl].
      intros [= <-]. unfold check_limit. simpl.
      destruct (_ >=? _); simpl; [done|]. exact (Hcl _ _ Hc).
    + unfold add_message. rewrite Hc. exact Hcl.
  - unfold end_conversation.
    destruct (conversations self !! sid) as [c|] eqn:Hc; [|exact Hcl].
    intros sid' c'. simpl. rewrite lookup_insert. case_decide; [|apply Hcl].
    by intros [= <-].
  - intros sid' c'. unfold cleanup_conversation. simpl.
    rewrite lookup_delete. case_decide; [done|apply Hcl].
Qed.

Lemma closed_run (cs : list call) (self : t) :
  closed_when_complete self → closed_when_complete (run self cs).
Proof.
  revert self. induction cs as [|cl cs IH]; intros self Hcl; [exact Hcl|].
  simpl. apply IH. by apply closed_step.
Qed.

Lemma closed_init (limit : Z) : closed_when_complete (__init__ limit).
Proof. intros sid c. unfold __init__. simpl. by rewrite lookup_empty. Qed.

Lemma nonneg_step (self : t) (cl : call) :
  (∀ sid c, conversations self !! sid = Some c → 0 ≤ State.current_message_num c) →
  ∀ sid c, conversations (step self cl) !! sid = Some c →
           0 ≤ State.current_message_num c.
Proof.
  intros Hnn. destruct cl as [sid pid bot now|sid snd txt now|sid why now|sid];
    simpl; intros sid' c'.
  - rewrite lookup_insert. case_decide; [|apply Hnn]. by intros [= <-].
  - destruct (conversations self !! sid) as [c|] eqn:Hc.
    + rewrite (add_message_found _ _ _ _ _ _ Hc). simpl.
      rewrite lookup_insert. case_decide; [|apply Hnn].
      intros [= <-]. rewrite check_limit_num. simpl.
      specialize (Hnn _ _ Hc). case_decide; lia.
    + unfold add_message. rewrite Hc. apply Hnn.
  - unfold end_conversation.
    destruct (conversations self !! sid) as [c|] eqn:Hc; [|apply Hnn].
    simpl. rewrite lookup_insert. case_decide; [|apply Hnn].
    intros [= <-]. simpl. by apply (Hnn _ _ Hc).
  - unfold cleanup_conversation. simpl.
    rewrite lookup_delete. case_decide; [done|apply Hnn].
Qed.

Lemma nonneg_run (cs : list call) (self : t) :
  (∀ sid c, conversations self !! sid = Some c → 0 ≤ State.current_message_num c) →
  ∀ sid c, conversations (run self cs) !! sid = Some c →
           0 ≤ State.current_message_num c.
Proof.
  revert self. induction cs as [|cl cs IH]; intros self Hnn; [exact Hnn|].
  simpl. apply IH. by apply nonneg_step.
Qed.

(** X5. After [cleanup_conversation] the session is unknown to every method:
    no state, not active, to be ended, nothing remaining, no messages, and
    [add_message] raises the not-found [ValueError] and leaves the handler
    as it is; the other conversations are untouched. *)
Theorem cleanup_forgets_the_session (self : t) (sid sender content : string)
  (now : Z) :
  let h := cleanup_conversation self sid in
  get_conversation_state h sid = None
  ∧ is_conversation_active h sid = false
  ∧ should_end_conversation h sid = true
  ∧ get_remaining_messages h sid = 0
  ∧ get_conversation_messages h sid = []
  ∧ add_message h sid sender content now
    = (Raise (ValueError ("Conversation not found for session: " +:+ sid)), h)
  ∧ ∀ sid', sid' ≠ sid →
      get_conversation_state h sid' = get_conversation_state self sid'.
Proof.
  intros h.
  assert (Hgone : conversations h !! sid = None) by apply lookup_delete_eq.
  unfold get_conversation_state, is_conversation_active,
    should_end_conversation, get_remaining_messages,
    get_conversation_messages, add_message.
  rewrite Hgone. repeat split.
  intros sid' Hne. unfold h. simpl. by apply lookup_delete_ne.
Qed.

(** X6. In a handler whose cap is at least 1, after any calls, the two queries
    agree on every session id, known or not: the conversation should end
    exactly when it is not active. *)
Theorem should_end_iff_not_active (limit : Z) (cs : list call) (sid : string) :
  1 ≤ limit →
  should_end_conversation (run (__init__ limit) cs) sid
  = negb (is_conversation_active (run (__init__ limit) cs) sid).
Proof.
  intros Hlimit.
  pose proof (capped_run cs (__init__ limit) Hlimit (capped_init limit)) as Hcap.
  pose proof (closed_run cs (__init__ limit) (closed_init limit)) as Hcl.
  unfold should_end_conversation, is_conversation_active.
  destruct (conversations _ !! sid) as [c|] eqn:Hc; [|reflexivity].
  destruct (Hcap _ _ Hc) as [Hm Hiff]. rewrite Hm.
  destruct (_ >=? _) eqn:Hge.
  - rewrite (Hcl _ _ Hc); [reflexivity|]. apply Hiff. lia.
  - by destruct (State.is_active c).
Qed.

(** X7. In a handler whose cap is at least 1, after any calls, the messages
    remaining for a conversation are the cap minus its counter, never below
    0 and never above the cap, and 0 exactly when the conversation is
    complete. *)
Theorem remaining_messages_bounds (limit : Z) (cs : list call) (sid : string)
  (c : State.t) :
  1 ≤ limit →
  conversations (run (__init__ limit) cs) !! sid = Some c →
  let remaining := get_remaining_messages (run (__init__ limit) cs) sid in
  remaining = Z.max 0 (limit - State.current_message_num c)
  ∧ 0 ≤ remaining ≤ limit
  ∧ (remaining = 0 ↔ State.is_complete c = true).
Proof.
  intros Hlimit Hc remaining.
  pose proof (capped_run cs (__init__ limit) Hlimit (capped_init limit)) as Hcap.
  destruct (Hcap _ _ Hc) as [Hm Hiff]. rewrite run_max in Hm, Hiff.
  simpl in Hm, Hiff.
  assert (Hnn : 0 ≤ State.current_message_num c).
  { eapply (nonneg_run cs (__init__ limit)); [|exact Hc].
    intros sid' c'. unfold __init__. simpl. by rewrite lookup_empty. }
  unfold remaining, get_remaining_messages. rewrite Hc, Hm.
  split; [reflexivity|]. split; [lia|]. rewrite Hiff. lia.
Qed.

Lemma add_messages_messages (ms : list message) (self : t) (sid : string)
  (c : State.t) :
  conversations self !! sid = Some c →
  get_conversation_messages (add_messages self sid ms) sid
  = State.messages c ++ ms.
Proof.
  revert self c. induction ms as [|m ms IH]; intros self c Hc.
  - unfold get_conversation_messages, add_messages. simpl. rewrite Hc.
    by rewrite app_nil_r.
  - rewrite add_messages_cons.
    rewrite (add_message_found _ _ _ _ _ _ Hc). simpl.
    erewrite IH; [|simpl; apply lookup_insert_eq].
    unfold check_limit. destruct (_ >=? _); simpl;
      rewrite <- app_assoc; by destruct m.
Qed.

(** X8. The messages given to [add_message] come back from
    [get_conversation_messages] as they were given and in the order given,
    after those the conversation already had. *)
Theorem messages_are_kept_in_order (self : t) (sid : string) (c : State.t)
  (ms : list message) :
  conversations self !! sid = Some c →
  get_conversation_messages (add_messages self sid ms) sid
  = get_conversation_messages self sid ++ ms.
Proof.
  intros Hc. rewrite (add_messages_messages ms self sid c Hc).
  unfold get_conversation_messages. by rewrite Hc.
Qed.

Lemma continues_refl (c : State.t) : continues c c.
Proof. unfold continues. repeat split; try done. Qed.

Lemma continues_trans (c1 c2 c3 : State.t) :
  continues c1 c2 → continues c2 c3 → continues c1 c3.
Proof.
  unfold continues.
  intros (A1 & A2 & A3 & A4 & A5 & A6 & A7 & A8 & A9)
         (B1 & B2 & B3 & B4 & B5 & B6 & B7 & B8 & B9).
  repeat split; try congruence; try lia; try tauto.
  by etrans.
Qed.

Lemma continues_step (self : t) (cl : call) (sid : string) (c : State.t) :
  conversations self !! sid = Some c → resets sid cl = false →
  ∃ c', conversations (step self cl) !! sid = Some c' ∧ continues c c'.
Proof.
  intros Hc Hres.
  destruct cl as [sid' pid bot now|sid' snd txt now|sid' why now|sid']; simpl in *.
  - apply bool_decide_eq_false in Hres.
    exists c. rewrite lookup_insert_ne by done. split; [exact Hc|apply continues_refl].
  - destruct (decide (sid' = sid)) as [->|Hne].
    + rewrite (add_message_found _ _ _ _ _ _ Hc). simpl.
      rewrite lookup_insert_eq. eexists. split; [reflexivity|].
      unfold continues, check_limit.
      destruct (_ >=? _); simpl; repeat split; try done;
        try (case_decide; lia); by apply prefix_app_r.
    + exists c. split; [|apply continues_refl].
      unfold add_message. destruct (conversations self !! sid'); simpl;
        [by rewrite lookup_insert_ne|exact Hc].
  - unfold end_conversation. destruct (decide (sid' = sid)) as [->|Hne].
    + rewrite Hc. simpl. rewrite lookup_insert_eq. eexists.
      split; [reflexivity|]. unfold continues. simpl.
      repeat split; try done. intros ->. by destruct (_ >=? _).
    + exists c. split; [|apply continues_refl].
      destruct (conversations self !! sid'); simpl;
        [by rewrite lookup_insert_ne|exact Hc].
  - apply bool_decide_eq_false in Hres.
    exists c. rewrite lookup_delete_ne by done. split; [exact Hc|apply continues_refl].
Qed.

(** X9. As long as a conversation is neither started anew nor cleaned up, no
    call on the handler loses anything of it: it stays registered with the
    same session, participant, variant, cap and start time; its counter
    never goes down; its messages are only appended to; and once it is
    complete, or no longer active, it stays so. *)
Theorem conversation_only_moves_forward (cs : list call) (self : t)
  (sid : string) (c : State.t) :
  conversations self !! sid = Some c →
  forallb (λ cl, negb (resets sid cl)) cs = true →
  ∃ c', conversations (run self cs) !! sid = Some c' ∧ continues c c'.
Proof.
  revert self c. induction cs as [|cl cs IH]; intros self c Hc Hall.
  - exists c. split; [exact Hc|apply continues_refl].
  - simpl in Hall. apply andb_true_iff in Hall as [Hcl Hall].
    apply negb_true_iff in Hcl.
    destruct (continues_step self cl sid c Hc Hcl) as (c1 & Hc1 & H1).
    destruct (IH (step self cl) c1 Hc1 Hall) as (c' & Hc' & H').
    exists c'. split; [exact Hc'|]. by eapply continues_trans.
Qed.

(** X10. [end_conversation] before the cap is reached leaves the conversation
    inactive but not complete, so it can be told from one that ran to the
    cap; at or above the cap it is marked complete. Counter and messages
    are kept, and the time and reason of the end are recorded. *)
Theorem early_end_is_not_complete (limit : Z) (cs : list call)
  (sid reason : string) (now : Z) (c : State.t) :
  1 ≤ limit →
  conversations (run (__init__ limit) cs) !! sid = Some c →
  ∃ c', conversations
          (end_conversation (run (__init__ limit) cs) sid reason now) !! sid
        = Some c'
      ∧ State.is_active c' = false
      ∧ (State.is_complete c' = true ↔ limit ≤ State.current_message_num c)
      ∧ State.current_message_num c' = State.current_message_num c
      ∧ State.messages c' = State.messages c
      ∧ State.ended_at c' = Some now
      ∧ State.end_reason c' = Some reason.
Proof.
  intros Hlimit Hc.
  pose proof (capped_run cs (__init__ limit) Hlimit (capped_init limit)) as Hcap.
  destruct (Hcap _ _ Hc) as [Hm Hiff]. rewrite run_max in Hm, Hiff.
  simpl in Hm, Hiff.
  unfold end_conversation. rewrite Hc. simpl. rewrite lookup_insert_eq.
  eexists. split; [reflexivity|]. simpl. repeat split; try done.
  - rewrite Hm. destruct (_ >=? _) eqn:Hge; [lia|]. by rewrite Hiff.
  - rewrite Hm. intros Hle. destruct (_ >=? _) eqn:Hge; [done|lia].
Qed.

Lemma disjoint_filters {A} (P Q : A → Prop) `{∀ x, Decision (P x)}
  `{∀ x, Decision (Q x)} (l : list A) :
  (∀ x, x ∈ l → P x → Q x → False) →
  (length (filter P l) + length (filter Q l) ≤ length l)%nat.
Proof.
  induction l as [|x l IH]; intros Hdis; [simpl; lia|].
  assert (IH' : (length (filter P l) + length (filter Q l) ≤ length l)%nat).
  { apply IH. intros y Hy. apply Hdis. by right. }
  rewrite !filter_cons.
  destruct (decide (P x)) as [HP|HP], (decide (Q x)) as [HQ|HQ]; simpl; try lia.
  exfalso. apply (Hdis x); [left|done|done].
Qed.

(** X11. The statistics of a handler, after any calls, add up: a conversation is
    never counted both as active and as completed, so these two counts
    together do not exceed the total, and the completed and the incomplete
    ones are the total. *)
Theorem statistics_add_up (limit : Z) (cs : list call) :
  let stats := get_statistics (run (__init__ limit) cs) in
  0 ≤ active_conversations stats
  ∧ 0 ≤ completed_conversations stats
  ∧ active_conversations stats + completed_conversations stats
    ≤ total_conversations stats
  ∧ completed_conversations stats + incomplete_conversations stats
    = total_conversations stats
  ∧ 0 ≤ incomplete_conversations stats
  ∧ active_conversations stats
    = get_active_conversations_count (run (__init__ limit) cs).
Proof.
  intros stats.
  pose proof (closed_run cs (__init__ limit) (closed_init limit)) as Hcl.
  set (h := run (__init__ limit) cs) in *.
  set (l := map_to_list (conversations h)).
  assert (Hdis : (length (filter (λ kc : string * State.t,
                                    State.is_active kc.2 = true) l)
                  + length (filter (λ kc : string * State.t,
                                      State.is_complete kc.2 = true) l)
                  ≤ length l)%nat).
  { apply disjoint_filters. intros [k c] Hin Ha Hc. simpl in *.
    apply elem_of_map_to_list in Hin. rewrite (Hcl _ _ Hin Hc) in Ha. done. }
  assert (Hc : (length (filter (λ kc : string * State.t,
                                  State.is_complete kc.2 = true) l)
                ≤ length l)%nat) by apply length_filter.
  unfold stats, get_statistics, get_active_conversations_count, count_where.
  simpl. fold l. rewrite <- (length_map_to_list (conversations h)). fold l.
  repeat split; lia.
Qed.

End HandlerLife.

(** The example conversation, on a handler with a cap of 3. *)
Lemma should_end_iff_not_active_witness :
  1 ≤ 3
  ∧ ConversationHandler.should_end_conversation
      (ConversationHandler.run (ConversationHandler.__init__ 3)
         Examples.handler_calls) "s1" = true
  ∧ ConversationHandler.is_conversation_active
      (ConversationHandler.run (ConversationHandler.__init__ 3)
         Examples.handler_calls) "s1" = false.
Proof.
  assert (Hl : 1 ≤ 3) by lia.
  split; [exact Hl|].
  pose proof (should_end_iff_not_active 3 Examples.handler_calls "s1" Hl) as Heq.
  split; [|reflexivity]. rewrite Heq. reflexivity.
Defined.

(** Two messages remain after the first user message of the example. *)
Lemma remaining_messages_bounds_witness :
  ConversationHandler.conversations
    (ConversationHandler.run (ConversationHandler.__init__ 3)
       (take 3 Examples.handler_calls)) !! "s1" = Some Examples.handler_midway
  ∧ ConversationHandler.get_remaining_messages
      (ConversationHandler.run (ConversationHandler.__init__ 3)
         (take 3 Examples.handler_calls)) "s1" = 2.
Proof.
  assert (Hc : ConversationHandler.conversations
                 (ConversationHandler.run (ConversationHandler.__init__ 3)
                    (take 3 Examples.handler_calls)) !! "s1"
               = Some Examples.handler_midway) by reflexivity.
  split; [exact Hc|].
  destruct (remaining_messages_bounds 3 (take 3 Examples.handler_calls) "s1"
              Examples.handler_midway ltac:(lia) Hc) as [Heq _].
  rewrite Heq. reflexivity.
Defined.

(** The five messages of the example come back as given. *)
Lemma messages_are_kept_in_order_witness :
  let self :=
    (ConversationHandler.start_conversation (ConversationHandler.__init__ 3)
       "s1" "P001" "emotional" 100).2 in
  ConversationHandler.conversations self !! "s1" = Some Examples.handler_start
  ∧ ConversationHandler.get_conversation_messages
      (ConversationHandler.add_messages self "s1" Examples.handler_messages)
      "s1" = Examples.handler_messages.
Proof.
  intros self.
  assert (Hc : ConversationHandler.conversations self !! "s1"
               = Some Examples.handler_start) by reflexivity.
  split; [exact Hc|].
  exact (messages_are_kept_in_order self "s1" Examples.handler_start
           Examples.handler_messages Hc).
Defined.

(** The example conversation from its first answer to its third user
    message. *)
Lemma conversation_only_moves_forward_witness :
  let self :=
    ConversationHandler.run (ConversationHandler.__init__ 3)
      (take 3 Examples.handler_calls) in
  ConversationHandler.conversations self !! "s1" = Some Examples.handler_midway
  ∧ forallb (λ cl, negb (ConversationHandler.resets "s1" cl))
      (drop 3 Examples.handler_calls) = true
  ∧ ∃ c', ConversationHandler.conversations
            (ConversationHandler.run self (drop 3 Examples.handler_calls))
          !! "s1" = Some c'
        ∧ ConversationHandler.continues Examples.handler_midway c'.
Proof.
  intros self.
  assert (Hc : ConversationHandler.conversations self !! "s1"
               = Some Examples.handler_midway) by reflexivity.
  assert (Hall : forallb (λ cl, negb (ConversationHandler.resets "s1" cl))
                   (drop 3 Examples.handler_calls) = true) by reflexivity.
  split; [exact Hc|]. split; [exact Hall|].
  exact (conversation_only_moves_forward (drop 3 Examples.handler_calls) self
           "s1" Examples.handler_midway Hc Hall).
Defined.

(** The example conversation, ended by the user after one message. *)
Lemma early_end_is_not_complete_witness :
  let h :=
    ConversationHandler.run (ConversationHandler.__init__ 3)
      (take 3 Examples.handler_calls) in
  ConversationHandler.conversations h !! "s1" = Some Examples.handler_midway
  ∧ ∃ c', ConversationHandler.conversations
            (ConversationHandler.end_conversation h "s1" "user_left" 200)
          !! "s1" = Some c'
        ∧ ConversationHandler.State.is_active c' = false
        ∧ ConversationHandler.State.is_complete c' = false.
Proof.
  intros h.
  assert (Hc : ConversationHandler.conversations h !! "s1"
               = Some Examples.handler_midway) by reflexivity.
  split; [exact Hc|].
  destruct (early_end_is_not_complete 3 (take 3 Examples.handler_calls) "s1"
              "user_left" 200 Examples.handler_midway ltac:(lia) Hc)
    as (c' & Hc' & Ha & Hiff & _).
  exists c'. split; [exact Hc'|]. split; [exact Ha|].
  destruct (ConversationHandler.State.is_complete c'); [|reflexivity].
  exfalso. assert (Hle : 3 ≤ 1) by (by apply Hiff). lia.
Defined.

(** ** The life of a session in the registry *)

Section RegistryLife.
Import BotManager.

(** X12. [_first_existing_path] returns the earliest path of the list that is a
    non-empty text and exists: every path before it is empty or missing;
    and it returns nothing exactly when every path is empty or missing. *)
Theorem first_existing_path_is_earliest (fs : files) (paths : list string) :
  match _first_existing_path fs paths with
  | Some p =>
      ∃ before after,
        paths = before ++ p :: after
        ∧ p ≠ "" ∧ is_Some (fs !! p)
        ∧ ∀ q, q ∈ before → q = "" ∨ fs !! q = None
  | None => ∀ q, q ∈ paths → q = "" ∨ fs !! q = None
  end.
Proof.
  unfold _first_existing_path. induction paths as [|p paths IH]; simpl.
  - intros q Hq. by apply not_elem_of_nil in Hq.
  - rewrite filter_cons. destruct (decide _) as [[Ht He]|Hno]; simpl.
    + exists [], paths. split; [reflexivity|]. split; [by apply truthy_nonempty|].
      split; [exact He|]. intros q Hq. by apply not_elem_of_nil in Hq.
    + assert (Hp : p = "" ∨ fs !! p = None).
      { destruct p as [|a p']; [by left|]. right.
        destruct (fs !! String a p') eqn:E; [|done].
        exfalso. apply Hno. split; [done|by eexists]. }
      destruct (head _) as [p0|].
      * destruct IH as (before & after & -> & Hne & He & Hbefore).
        exists (p :: before), after. split; [reflexivity|].
        split; [exact Hne|]. split; [exact He|].
        intros q Hq. apply elem_of_cons in Hq as [->|Hq]; [exact Hp|by apply Hbefore].
      * intros q Hq. apply elem_of_cons in Hq as [->|Hq]; [exact Hp|by apply IH].
Qed.

(** X13. When the detector supplies no response (there is no detector, it has
    no such method, or the method raises), the safety text is never empty:
    it is the text of the crisis file when that reads as a non-blank text,
    and the built-in one otherwise. *)
Theorem crisis_text_fallback_is_not_empty (fs : files) (self : t) :
  (∀ detector text, crisis self = Some detector →
                    get_crisis_response detector ≠ Some (Ok text)) →
  _crisis_text fs self ≠ ""
  ∧ (crisis_text_path self = None → _crisis_text fs self = default_crisis_text).
Proof.
  intros Hnone.
  assert (Hfallback : ∀ paths,
            Py.or_else (_read_text fs paths) default_crisis_text ≠ "").
  { intros paths. unfold Py.or_else.
    destruct (Py.truthy _) eqn:Ht; [by apply truthy_nonempty|done]. }
  unfold _crisis_text. split.
  - destruct (crisis self) as [d|] eqn:Hd; [|apply Hfallback].
    destruct (get_crisis_response d) as [[text|e]|] eqn:Hr;
      [|apply Hfallback|apply Hfallback].
    by destruct (Hnone d text).
  - intros Hpath. rewrite Hpath.
    destruct (crisis self) as [d|] eqn:Hd; [|reflexivity].
    destruct (get_crisis_response d) as [[text|e]|] eqn:Hr;
      [|reflexivity|reflexivity].
    by destruct (Hnone d text).
Qed.

Lemma build_messages_length (self : t) (sess : session) (msg : string) :
  (length (build_messages self sess msg) ≤ 22)%nat.
Proof.
  unfold build_messages. rewrite !length_app, last_n_length.
  pose proof (Nat.le_min_l 20 (length (history sess))).
  destruct (Py.truthy _); cbn [length]; lia.
Qed.

Lemma build_messages_last (self : t) (sess : session) (msg : string) :
  last (build_messages self sess msg) = Some {| role := "user"; content := msg |}.
Proof.
  unfold build_messages. rewrite app_assoc. apply last_snoc.
Qed.

(** X14. A call of [get_bot_response] makes at most one request. The request
    carries at most 22 messages (a system prompt, 20 turns of history, the
    new turn), the last of which is the user's new message; its model name
    is never empty, and temperature and token budget are the manager's. *)
Theorem request_is_bounded (fs : files) (self : t) (api_log : list Request.t)
  (sid msg : string) (n : Z) :
  let api_log' := (get_bot_response fs self api_log sid msg n).2 in
  api_log' = api_log
  ∨ ∃ request,
      api_log' = api_log ++ [request]
      ∧ (length (Request.messages request) ≤ 22)%nat
      ∧ last (Request.messages request)
        = Some {| role := "user"; content := msg |}
      ∧ Request.model request ≠ ""
      ∧ Request.temperature request = temperature self
      ∧ Request.max_tokens request = max_tokens self.
Proof.
  unfold get_bot_response.
  destruct (sessions self !! sid) as [sess|]; [|by left].
  destruct (crisis_check self msg) as [[] kw]; [by left|].
  right. simpl. eexists. split; [reflexivity|]. simpl.
  split; [apply build_messages_length|]. split; [apply build_messages_last|].
  split; [|done]. unfold Py.or_else. by destruct (model self).
Qed.

(** X15. A call of [get_bot_response] never adds or removes a session, never
    changes the variant or the participant of any session, leaves every
    session but the addressed one as it is, and leaves the configuration of
    the manager as it is. *)
Theorem turn_touches_one_history (fs : files) (self : t)
  (api_log : list Request.t) (sid msg : string) (n : Z) :
  let self' := (get_bot_response fs self api_log sid msg n).1.2 in
  (∀ sid', sid' ≠ sid → sessions self' !! sid' = sessions self !! sid')
  ∧ (∀ sid', bot_type <$> sessions self' !! sid'
             = bot_type <$> sessions self !! sid')
  ∧ (∀ sid', participant_id <$> sessions self' !! sid'
             = participant_id <$> sessions self !! sid')
  ∧ (∀ sid' old, sessions self !! sid' = Some old →
       ∃ new, sessions self' !! sid' = Some new
              ∧ history old `prefix_of` history new)
  ∧ prompts self' = prompts self
  ∧ bot_types self' = bot_types self
  ∧ crisis self' = crisis self.
Proof.
  unfold get_bot_response.
  destruct (sessions self !! sid) as [sess|] eqn:Hs;
    [|simpl; repeat split; eauto].
  destruct (crisis_check self msg) as [[] kw]; [simpl; repeat split; eauto|].
  simpl. repeat split.
  - intros sid' Hne. by rewrite lookup_insert_ne.
  - intros sid'. destruct (decide (sid' = sid)) as [->|Hne].
    + by rewrite lookup_insert_eq, Hs.
    + by rewrite lookup_insert_ne.
  - intros sid'. destruct (decide (sid' = sid)) as [->|Hne].
    + by rewrite lookup_insert_eq, Hs.
    + by rewrite lookup_insert_ne.
  - intros sid' old Hold. destruct (decide (sid' = sid)) as [->|Hne].
    + rewrite lookup_insert_eq. eexists. split; [reflexivity|]. simpl.
      rewrite Hs in Hold. injection Hold as <-.
      rewrite <- app_assoc. by apply prefix_app_r.
    + rewrite lookup_insert_ne by done. eauto.
Qed.


End RegistryLife.

(** The manager built without configuration files answers a crisis with
    the built-in text. *)
Lemma crisis_text_fallback_is_not_empty_witness :
  BotManager._crisis_text Examples.disk
    (Examples.unconfigured Examples.answering)
  = BotManager.default_crisis_text.
Proof.
  assert (Hnone : ∀ detector text,
            BotManager.crisis (Examples.unconfigured Examples.answering)
            = Some detector →
            BotManager.get_crisis_response detector ≠ Some (Ok text))
    by (intros detector text Hd; discriminate Hd).
  exact (proj2 (crisis_text_fallback_is_not_empty Examples.disk
                  (Examples.unconfigured Examples.answering) Hnone) eq_refl).
Defined.


(** ** Conversations, creation and start-up of the registry *)

Section RegistryRuns.
Import BotManager.

Lemma paired_app (h t : list turn) :
  paired h = true → paired (h ++ t) = paired t.
Proof.
  assert (Hgen : ∀ n h, (length h ≤ n)%nat → paired h = true →
                        paired (h ++ t) = paired t).
  { clear h. induction n as [|n IH]; intros h Hlen Hp.
    - destruct h; [reflexivity|simpl in Hlen; lia].
    - destruct h as [|u [|a h']]; [reflexivity|discriminate|].
      simpl in Hp. apply andb_true_iff in Hp as [Hua Hp].
      simpl. rewrite Hua. simpl. apply IH; [simpl in Hlen; lia|exact Hp]. }
  apply (Hgen (length h)). lia.
Qed.

Lemma clear_messages_set_sessions (self : t) (s : gmap string session)
  (msgs : list string) :
  clear_messages (set_sessions self s) msgs = clear_messages self msgs.
Proof. reflexivity. Qed.

(** X17. A run of turns on a session whose history is made of user and
    assistant pairs keeps it so: the old history stays at the head, two
    turns are appended and one request is made for each message that is not
    short-circuited, nothing for the others, and variant and participant
    stay the same. *)
Theorem history_grows_in_pairs (fs : files) (msgs : list string) (self : t)
  (api_log : list Request.t) (sid : string) (n : Z) (sess : session) :
  sessions self !! sid = Some sess →
  paired (history sess) = true →
  let after := converse fs self api_log sid msgs n in
  ∃ sess',
    sessions after.1 !! sid = Some sess'
    ∧ paired (history sess') = true
    ∧ history sess `prefix_of` history sess'
    ∧ length (history sess')
      = (length (history sess) + 2 * length (clear_messages self msgs))%nat
    ∧ length after.2
      = (length api_log + length (clear_messages self msgs))%nat
    ∧ bot_type sess' = bot_type sess
    ∧ participant_id sess' = participant_id sess.
Proof.
  revert self api_log n sess.
  induction msgs as [|m msgs IH]; intros self api_log n sess Hs Hp; simpl.
  - exists sess. repeat split; try done. all: simpl; lia.
  - unfold clear_messages. rewrite filter_cons. fold (clear_messages self msgs).
    destruct (decide ((crisis_check self m).1 = false)) as [Hclear|Hcrisis].
    + rewrite (get_bot_response_clear fs self api_log sid m n sess Hs Hclear).
      set (reply := (_call_model self api_log (build_messages self sess m)).1).
      set (sess1 := {| participant_id := participant_id sess;
                       bot_type := bot_type sess;
                       history := (history sess
                                   ++ [{| role := "user"; content := m |}])
                                  ++ [{| role := "assistant"; content := reply |}] |}).
      destruct (IH (set_sessions self (<[sid := sess1]> (sessions self)))
                  (api_log ++ [request_for self (build_messages self sess m)])
                  (n + 1) sess1) as (sess' & Hs' & Hp' & Hpre & Hlen & Hlog & Hb & Hpid).
      { simpl. apply lookup_insert_eq. }
      { simpl. rewrite <- app_assoc. by rewrite paired_app. }
      exists sess'. split; [exact Hs'|]. split; [exact Hp'|].
      rewrite clear_messages_set_sessions in Hlen, Hlog.
      split; [|split; [|split; [|split]]].
      * etrans; [|exact Hpre]. simpl. rewrite <- app_assoc. by apply prefix_app_r.
      * rewrite Hlen. simpl. rewrite !length_app. simpl. lia.
      * rewrite Hlog. rewrite length_app. simpl. lia.
      * exact Hb.
      * exact Hpid.
    + unfold get_bot_response. rewrite Hs.
      destruct (crisis_check self m) as [[] kw]; [|by destruct Hcrisis].
      destruct (IH self api_log (n + 1) sess Hs Hp)
        as (sess' & Hs' & Hp' & Hpre & Hlen & Hlog & Hb & Hpid).
      exists sess'. repeat split; done.
Qed.

(** X18. Creating a session under a fresh id and ending it gives back the very
    manager there was before, and the id is unknown again: a turn for it
    raises the not-found error. Creation itself fails, and changes nothing,
    only on a manager with no bot type to draw from. *)
Theorem create_then_end_restores (fs : files) (self : t)
  (api_log : list Request.t) (uuid1 uuid2 msg : string) (draw : nat)
  (completed : bool) (n : Z) :
  sessions self !! uuid1 = None →
  (bot_types self ≠ [] →
   let created := (create_new_session self uuid1 uuid2 draw).2 in
   is_Some (sessions created !! uuid1)
   ∧ end_session created uuid1 completed = self
   ∧ get_bot_response fs (end_session created uuid1 completed) api_log
       uuid1 msg n
     = (Raise (ValueError ("Session not found: " +:+ uuid1)), self, api_log))
  ∧ (bot_types self = [] →
     create_new_session self uuid1 uuid2 draw
     = (Raise (IndexError "Cannot choose from an empty sequence"), self)).
Proof.
  intros Hfresh. split.
  - intros Hne created.
    assert (Hend : end_session created uuid1 completed = self).
    { unfold created, create_new_session.
      destruct (choice_total draw (bot_types self) Hne) as [b ->]. simpl.
      unfold end_session. simpl. rewrite lookup_insert_eq.
      unfold set_sessions. simpl. rewrite delete_insert_id by exact Hfresh.
      by destruct self. }
    split.
    + unfold created, create_new_session.
      destruct (choice_total draw (bot_types self) Hne) as [b ->]. simpl.
      rewrite lookup_insert_eq. by eexists.
    + split; [exact Hend|]. rewrite Hend.
      unfold get_bot_response. by rewrite Hfresh.
  - intros Hnil. unfold create_new_session. by rewrite Hnil.
Qed.

Lemma upper_ascii_idemp (c : ascii) :
  Py.upper_ascii (Py.upper_ascii c) = Py.upper_ascii c.
Proof. destruct c as [[] [] [] [] [] [] [] []]; reflexivity. Qed.

Lemma upper_idemp (s : string) : Py.upper (Py.upper s) = Py.upper s.
Proof.
  induction s as [|c s IH]; [reflexivity|].
  simpl. by rewrite upper_ascii_idemp, IH.
Qed.

Lemma upper_length (s : string) : String.length (Py.upper s) = String.length s.
Proof. induction s as [|c s IH]; [reflexivity|]. simpl. by rewrite IH. Qed.

Lemma substring_length (n : nat) (s : string) :
  String.length (substring 0 n s) = Nat.min n (String.length s).
Proof.
  revert s. induction n as [|n IH]; intros s.
  - by destruct s.
  - destruct s as [|c s]; [reflexivity|]. simpl. by rewrite IH.
Qed.

(** X19. The participant id [create_new_session] gives is the letter P followed
    by the first eight characters of the second identifier in upper case:
    it has one character more than those, and upper-casing it again changes
    nothing. The session is registered under the first identifier with this
    participant, a variant of the manager's list, and an empty history. *)
Theorem participant_id_format (self self' : t) (uuid1 uuid2 : string)
  (draw : nat) (r : new_session) :
  create_new_session self uuid1 uuid2 draw = (Ok r, self') →
  ns_session_id r = uuid1
  ∧ ns_participant_id r = "P" +:+ Py.upper (substring 0 8 uuid2)
  ∧ String.length (ns_participant_id r)
    = (1 + Nat.min 8 (String.length uuid2))%nat
  ∧ String.get 0 (ns_participant_id r) = Some "P"%char
  ∧ Py.upper (ns_participant_id r) = ns_participant_id r
  ∧ ns_bot_type r ∈ bot_types self
  ∧ sessions self' !! uuid1
    = Some {| participant_id := ns_participant_id r;
              bot_type := ns_bot_type r;
              history := [] |}.
Proof.
  unfold create_new_session.
  destruct (Py.choice draw (bot_types self)) as [b|e] eqn:Hb; [|discriminate].
  intros [= <- <-].
  cbn [ns_session_id ns_participant_id ns_bot_type sessions set_sessions].
  split; [reflexivity|]. split; [reflexivity|].
  split; [|split; [reflexivity|split; [|split]]].
  - change (S (String.length (Py.upper (substring 0 8 uuid2)))
            = S (Nat.min 8 (String.length uuid2))).
    by rewrite upper_length, substring_length.
  - change (String "P" (Py.upper (Py.upper (substring 0 8 uuid2)))
            = String "P" (Py.upper (substring 0 8 uuid2))).
    by rewrite upper_idemp.
  - by eapply choice_elem.
  - by rewrite lookup_insert_eq.
Qed.

Lemma first_existing_path_none (fs : files) (paths : list string) :
  (∀ q, q ∈ paths → fs !! q = None) → _first_existing_path fs paths = None.
Proof.
  intros Hnone. unfold _first_existing_path.
  induction paths as [|p paths IH]; [reflexivity|].
  rewrite filter_cons. destruct (decide _) as [[_ [x He]]|_].
  - rewrite Hnone in He by left. discriminate.
  - apply IH. intros q Hq. apply Hnone. by right.
Qed.

(** X20. A manager [__init__] returns starts with no session and the four bot
    types, each of which has an entry among the prompts; the control variant
    has the empty prompt, so its sessions are sent no system message; and
    there is no detector when the detector module is missing or when no
    application configuration file exists. [__init__] fails, with a
    [RuntimeError], exactly when the provider client cannot be set up. *)
Theorem init_gives_a_working_manager (fs : files) (api_model : string)
  (api_temperature : float) (api_max_tokens : Z)
  (detector : option (string → result CrisisDetector))
  (client : result (list Request.t → Request.t → result (option string)))
  (self : t) :
  __init__ fs api_model api_temperature api_max_tokens detector client
  = Ok self →
  (∃ c, client = Ok c ∧ _client self = c)
  ∧ sessions self = ∅
  ∧ bot_types self = ["cognitive"; "emotional"; "motivational"; "control"]
  ∧ (∀ b, b ∈ bot_types self → is_Some (prompts self !! b))
  ∧ (∀ sess msg, bot_type sess = "control" →
       build_messages self sess msg
       = Py.last_n 20 (history sess) ++ [{| role := "user"; content := msg |}])
  ∧ (detector = None → crisis self = None)
  ∧ (fs !! "config/app_config.yaml" = None → fs !! "app_config.yaml" = None →
     crisis self = None).
Proof.
  unfold __init__. destruct client as [c|e]; [|discriminate].
  intros [= <-]. simpl. split; [eauto|]. split; [reflexivity|].
  split; [reflexivity|]. split; [|split; [|split]].
  - intros b Hb.
    repeat (apply elem_of_cons in Hb as [->|Hb]; [by eexists|]).
    by apply not_elem_of_nil in Hb.
  - intros sess msg Hctl. unfold build_messages. simpl. by rewrite Hctl.
  - by intros ->.
  - intros H1 H2. rewrite first_existing_path_none.
    + by destruct detector.
    + intros q Hq. repeat (apply elem_of_cons in Hq as [->|Hq]; [done|]).
      by apply not_elem_of_nil in Hq.
Qed.

End RegistryRuns.

(** Three messages to the example session, the second one a crisis. *)
Lemma history_grows_in_pairs_witness :
  let self := Examples.started Examples.answering in
  BotManager.sessions self !! Examples.session_id
  = Some {| BotManager.participant_id := "PA1B2C3D4";
            BotManager.bot_type := "emotional";
            BotManager.history := [] |}
  ∧ ∃ sess',
      BotManager.sessions
        (BotManager.converse Examples.disk self [] Examples.session_id
           ["hello"; "I want to end my life"; "thanks"] 1).1
      !! Examples.session_id = Some sess'
      ∧ BotManager.paired (BotManager.history sess') = true
      ∧ length (BotManager.history sess') = 4%nat
      ∧ length (BotManager.converse Examples.disk self [] Examples.session_id
                  ["hello"; "I want to end my life"; "thanks"] 1).2 = 2%nat.
Proof.
  intros self.
  assert (Hs : BotManager.sessions self !! Examples.session_id
               = Some {| BotManager.participant_id := "PA1B2C3D4";
                         BotManager.bot_type := "emotional";
                         BotManager.history := [] |}) by reflexivity.
  split; [exact Hs|].
  destruct (history_grows_in_pairs Examples.disk
              ["hello"; "I want to end my life"; "thanks"] self []
              Examples.session_id 1 _ Hs eq_refl)
    as (sess' & Hs' & Hp & _ & Hlen & Hlog & _).
  exists sess'. split; [exact Hs'|]. split; [exact Hp|].
  split; [exact Hlen|exact Hlog].
Defined.

(** A session created on the example manager and ended at once. *)
Lemma create_then_end_restores_witness :
  let self := Examples.manager Examples.answering in
  BotManager.sessions self !! Examples.session_id = None
  ∧ BotManager.end_session
      (BotManager.create_new_session self Examples.session_id
         "a1b2c3d4-0000-4000-8000-000000000000" 1).2
      Examples.session_id true = self.
Proof.
  intros self.
  assert (Hf : BotManager.sessions self !! Examples.session_id = None)
    by reflexivity.
  split; [exact Hf|].
  assert (Hne : BotManager.bot_types self ≠ []) by discriminate.
  exact (proj1 (proj2 (proj1 (create_then_end_restores Examples.disk self []
                                Examples.session_id
                                "a1b2c3d4-0000-4000-8000-000000000000" "hello"
                                1 true 1 Hf) Hne))).
Defined.

(** The participant id of the example session. *)
Lemma participant_id_format_witness :
  BotManager.create_new_session (Examples.manager Examples.answering)
    Examples.session_id "a1b2c3d4-0000-4000-8000-000000000000" 1
  = (Ok {| BotManager.ns_session_id := Examples.session_id;
           BotManager.ns_participant_id := "PA1B2C3D4";
           BotManager.ns_bot_type := "emotional" |},
     Examples.started Examples.answering)
  ∧ "PA1B2C3D4"
    = "P" +:+ Py.upper (substring 0 8 "a1b2c3d4-0000-4000-8000-000000000000")
  ∧ String.length "PA1B2C3D4" = 9%nat
  ∧ Py.upper "PA1B2C3D4" = "PA1B2C3D4".
Proof.
  assert (Hrun : BotManager.create_new_session
                   (Examples.manager Examples.answering) Examples.session_id
                   "a1b2c3d4-0000-4000-8000-000000000000" 1
                 = (Ok {| BotManager.ns_session_id := Examples.session_id;
                          BotManager.ns_participant_id := "PA1B2C3D4";
                          BotManager.ns_bot_type := "emotional" |},
                    Examples.started Examples.answering)) by reflexivity.
  split; [exact Hrun|].
  destruct (participant_id_format _ _ _ _ _ _ Hrun)
    as (_ & Hid & Hlen & _ & Hup & _).
  split; [exact Hid|]. split; [exact Hlen|exact Hup].
Defined.

(** The example manager, built on the example disk. *)
Lemma init_gives_a_working_manager_witness :
  BotManager.__init__ Examples.disk "gpt-4" 0.5%float 1024
    (Some (λ _, Ok Examples.detector)) (Ok Examples.answering)
  = Ok (Examples.manager Examples.answering)
  ∧ BotManager.sessions (Examples.manager Examples.answering) = ∅
  ∧ ∀ sess msg, BotManager.bot_type sess = "control" →
      BotManager.build_messages (Examples.manager Examples.answering) sess msg
      = Py.last_n 20 (BotManager.history sess)
        ++ [{| BotManager.role := "user"; BotManager.content := msg |}].
Proof.
  assert (Hinit : BotManager.__init__ Examples.disk "gpt-4" 0.5%float 1024
                    (Some (λ _, Ok Examples.detector)) (Ok Examples.answering)
                  = Ok (Examples.manager Examples.answering)) by reflexivity.
  split; [exact Hinit|].
  destruct (init_gives_a_working_manager _ _ _ _ _ _ _ Hinit)
    as (_ & Hs & _ & _ & Hctl & _).
  split; [exact Hs|exact Hctl].
Defined.

(** ** The page over its runs *)

Section PageLife.
Import App.
Context {DB : Type} `{DatabaseManager DB}.

Ltac split_page :=
  repeat match goal with
  | |- context [match ?x with _ => _ end] => destruct x eqn:?; simpl
  end.

Lemma rehydrate_db (w : world DB) : db (rehydrate w) = db w.
Proof. unfold rehydrate. split_page; reflexivity. Qed.

Lemma get_bot_response_present (fs : BotManager.files) (self : BotManager.t)
  (api_log : list BotManager.Request.t) (sid msg : string) (n : Z) :
  is_Some (BotManager.sessions self !! sid) →
  ∃ reply self' api_log',
    BotManager.get_bot_response fs self api_log sid msg n
    = (Ok reply, self', api_log').
Proof.
  intros [sess Hs]. unfold BotManager.get_bot_response. rewrite Hs.
  destruct (BotManager.crisis_check self msg) as [[] kw]; [eauto|].
  destruct (BotManager._call_model _ _ _). eauto.
Qed.

Lemma rehydrate_present (w : world DB) :
  session_id (st w) ≠ "" →
  is_Some (BotManager.sessions (bot_manager (rehydrate w)) !! session_id (st w)).
Proof.
  intros Hne. apply truthy_nonempty in Hne. unfold rehydrate. rewrite Hne. simpl.
  destruct (BotManager.sessions (bot_manager w) !! session_id (st w)) as [old|]
    eqn:Hold.
  - rewrite bool_decide_eq_false_2 by done. rewrite Hold. by eexists.
  - rewrite bool_decide_eq_true_2 by done. simpl. rewrite lookup_insert_eq.
    by eexists.
Qed.

(** X21. Rehydration puts the session of the page into a manager that lacks it,
    with the participant and variant of the page and, as history, those of
    the last 20 messages of the page that are user or assistant turns; a
    session the manager holds is left as it is, and so is every other
    session, the page, the store and the log of requests. *)
Theorem rehydrate_restores_the_session (w : world DB) :
  let sid := session_id (st w) in
  let before := BotManager.sessions (bot_manager w) in
  let after := BotManager.sessions (bot_manager (rehydrate w)) in
  (sid ≠ "" →
   match before !! sid with
   | Some old => after !! sid = Some old
   | None =>
       ∃ sess,
         after !! sid = Some sess
         ∧ BotManager.participant_id sess = participant_id (st w)
         ∧ BotManager.bot_type sess = bot_type (st w)
         ∧ BotManager.history sess
           = filter (λ m, BotManager.role m = "user"
                          ∨ BotManager.role m = "assistant")
               (Py.last_n 20 (messages (st w)))
         ∧ (length (BotManager.history sess) ≤ 20)%nat
   end)
  ∧ (∀ sid', sid' ≠ sid → after !! sid' = before !! sid')
  ∧ (sid = "" → rehydrate w = w)
  ∧ st (rehydrate w) = st w
  ∧ db (rehydrate w) = db w
  ∧ api_log (rehydrate w) = api_log w.
Proof.
  intros sid before after.
  split; [|split; [|split; [|split; [apply rehydrate_st|
                                     split; [apply rehydrate_db|
                                             apply rehydrate_api_log]]]]].
  - intros Hne. apply truthy_nonempty in Hne.
    unfold after, before, rehydrate. fold sid. rewrite Hne. simpl.
    destruct (BotManager.sessions (bot_manager w) !! sid) as [old|] eqn:Hold.
    + rewrite bool_decide_eq_false_2 by done. exact Hold.
    + rewrite bool_decide_eq_true_2 by done. simpl. rewrite lookup_insert_eq.
      eexists. split; [reflexivity|]. simpl. repeat split.
      etrans; [apply length_filter|]. rewrite last_n_length. lia.
  - intros sid' Hdiff. unfold after, before, rehydrate. fold sid.
    destruct (_ && _); simpl; [by rewrite lookup_insert_ne|reflexivity].
  - intros Hempty. unfold rehydrate. fold sid. by rewrite Hempty.
Qed.

Lemma rerun_counter_le (fs : BotManager.files) (max_messages : Z)
  (w : world DB) (step : BotManager.t * page_input * entropy) :
  0 ≤ max_messages →
  current_message_num (st w) ≤ max_messages →
  current_message_num (st (rerun fs max_messages w step)) ≤ max_messages.
Proof.
  intros Hpos Hle. unfold rerun, main. simpl.
  destruct (show_welcome (st w)).
  { destruct (consent step.1.2); [|exact Hle].
    unfold welcome. simpl. split_page; simpl; lia. }
  destruct (conversation_complete (st w)); [exact Hle|].
  destruct (conversation_active (st w)); [|exact Hle].
  unfold active. rewrite rehydrate_st. simpl.
  destruct (_ >=? _) eqn:Hge.
  - unfold close_conversation. rewrite ?rehydrate_st. simpl.
    split_page; rewrite ?rehydrate_st; exact Hle.
  - destruct (user_input step.1.2) as [text|];
      [|simpl; rewrite ?rehydrate_st; exact Hle].
    destruct (Py.truthy text); [|simpl; rewrite ?rehydrate_st; exact Hle].
    rewrite send_counter, rehydrate_st. simpl. lia.
Qed.

(** X22. Whatever the page receives over any number of runs (consent or not,
    texts or nothing, failures of the store or of the provider), the
    message counter of the page never goes above the cap. *)
Theorem counter_never_exceeds_cap (fs : BotManager.files) (max_messages : Z)
  (steps : list (BotManager.t * page_input * entropy)) (w : world DB) :
  0 ≤ max_messages →
  current_message_num (st w) ≤ max_messages →
  current_message_num (st (runs fs max_messages steps w)) ≤ max_messages.
Proof.
  intros Hpos. revert w. induction steps as [|step steps IH]; intros w Hle.
  - exact Hle.
  - simpl. apply IH. by apply rerun_counter_le.
Qed.

(** X23. Once the page shows the completion page, no run changes the page
    state, the store or the log of requests: whatever is typed or clicked,
    the conversation stays complete. *)
Theorem completed_page_is_final (fs : BotManager.files) (max_messages : Z)
  (steps : list (BotManager.t * page_input * entropy)) (w : world DB) :
  show_welcome (st w) = false →
  conversation_complete (st w) = true →
  let w' := runs fs max_messages steps w in
  st w' = st w ∧ db w' = db w ∧ api_log w' = api_log w.
Proof.
  revert w. induction steps as [|step steps IH]; intros w Hw Hc; [done|].
  simpl.
  assert (Hrun : rerun fs max_messages w step
                 = with_error (with_bot w step.1.1 (api_log w)) None).
  { unfold rerun. by rewrite main_complete. }
  destruct (IH (rerun fs max_messages w step)) as (Hs & Hd & Hl);
    [by rewrite Hrun|by rewrite Hrun|].
  unfold runs in *. rewrite Hs, Hd, Hl, Hrun. done.
Qed.

(** X24. Below the cap, on a page with a session id, a text the store accepts
    is always answered: the run adds exactly the user message and one
    assistant message to the page, raises the counter by one and leaves the
    conversation open. The session cannot be missing, since rehydration
    comes first. *)
Theorem user_turn_is_answered (fs : BotManager.files) (max_messages : Z)
  (w : world DB) (step : BotManager.t * page_input * entropy) (text : string)
  (saved : option Z) (d : DB) :
  chatting (st w) = true →
  current_message_num (st w) < max_messages →
  session_id (st w) ≠ "" →
  user_input step.1.2 = Some text → text ≠ "" →
  save_message (db w) (participant_id (st w))
    (current_message_num (st w) + 1) "user" text None = (Ok saved, d) →
  let w' := rerun fs max_messages w step in
  ∃ reply,
    messages (st w')
    = messages (st w)
      ++ [{| BotManager.role := "user"; BotManager.content := text |};
          {| BotManager.role := "assistant"; BotManager.content := reply |}]
    ∧ current_message_num (st w') = current_message_num (st w) + 1
    ∧ chatting (st w') = true.
Proof.
  intros Hchat Hlt Hsid Hin Htext Hsave w'.
  destruct (rerun_user_turn fs max_messages w step Hchat) as [Hchat' Hnum];
    [unfold is_user_turn; rewrite Hin; by apply truthy_nonempty|exact Hlt|].
  fold w' in Hchat', Hnum.
  apply chatting_spec in Hchat as (Hw & Hc & Ha).
  apply truthy_nonempty in Htext.
  set (w0 := with_error (with_bot w step.1.1 (api_log w)) None).
  assert (Hw' : w' = (send fs text (rehydrate w0)).2).
  { unfold w', rerun. rewrite main_active by done.
    by rewrite (active_below_cap _ _ _ text). }
  assert (Hpresent : is_Some (BotManager.sessions (bot_manager (rehydrate w0))
                              !! session_id (st w))).
  { exact (rehydrate_present w0 Hsid). }
  destruct (get_bot_response_present fs _ (api_log (rehydrate w0))
              (session_id (st w)) text (current_message_num (st w) + 1)
              Hpresent) as (reply & bm & log & Hreply).
  exists (BotManager.bot_response reply).
  split; [|split; [exact Hnum|exact Hchat']].
  rewrite Hw'. unfold send. rewrite !rehydrate_st. simpl.
  rewrite rehydrate_db. simpl. rewrite Hsave. simpl.
  rewrite Hreply. simpl.
  destruct (save_message d _ _ _ _ _) as [[x|e] d']; simpl.
  - destruct (BotManager.crisis_detected reply); rewrite ?flag_crisis_st; simpl;
      by rewrite <- app_assoc.
  - by rewrite <- app_assoc.
Qed.

(** X25. Consent on the welcome page opens the conversation: the page leaves
    the welcome stage with an empty message list and a counter of 0, the
    manager holds a session with an empty history under the id, the
    participant and the variant the page now shows, and the participant is
    created in the store with that id and variant. Without consent the run
    changes nothing but the error banner. *)
Theorem consent_opens_the_conversation (fs : BotManager.files)
  (max_messages : Z) (input : page_input) (rnd : entropy) (w : world DB) :
  show_welcome (st w) = true →
  (consent input = false →
   main fs max_messages input rnd w = (Returned, with_error w None))
  ∧ (consent input = true → BotManager.bot_types (bot_manager w) ≠ [] →
     let r := main fs max_messages input rnd w in
     let s := st r.2 in
     r.1 ≠ Returned
     ∧ show_welcome s = false ∧ conversation_active s = true
     ∧ messages s = [] ∧ current_message_num s = 0
     ∧ session_id s = uuid1 rnd
     ∧ bot_type s ∈ BotManager.bot_types (bot_manager w)
     ∧ BotManager.sessions (bot_manager r.2) !! session_id s
       = Some {| BotManager.participant_id := participant_id s;
                 BotManager.bot_type := bot_type s;
                 BotManager.history := [] |}
     ∧ db r.2
       = (create_participant (db w) (participant_id s) (bot_type s)
            (prolific_id (st w))).2
     ∧ api_log r.2 = api_log w).
Proof.
  intros Hw. unfold main. simpl. rewrite Hw. split.
  - by intros ->.
  - intros -> Hne. unfold welcome, BotManager.create_new_session. simpl.
    destruct (choice_total (draw rnd) (BotManager.bot_types (bot_manager w)) Hne)
      as [b Hb].
    rewrite Hb. simpl.
    destruct (create_participant _ _ _ _) as [[x|e] d] eqn:Hcp; simpl;
      (repeat split; try done;
       [by eapply choice_elem|by rewrite lookup_insert_eq
       |by rewrite Hcp]).
Qed.

(** X26. On a manager that lacks the session, as every run of the script finds
    it, the context sent for a message that is not short-circuited is built
    from the page: the system prompt of the page's variant if there is one,
    the user and assistant messages among the last 20 of the page (safety
    replies shown earlier included), and the new message. *)
Theorem context_comes_from_the_page (fs : BotManager.files) (max_messages : Z)
  (w : world DB) (step : BotManager.t * page_input * entropy) (text : string)
  (saved : option Z) (d : DB) :
  chatting (st w) = true →
  current_message_num (st w) < max_messages →
  session_id (st w) ≠ "" →
  BotManager.sessions step.1.1 !! session_id (st w) = None →
  user_input step.1.2 = Some text → text ≠ "" →
  (BotManager.crisis_check step.1.1 text).1 = false →
  save_message (db w) (participant_id (st w))
    (current_message_num (st w) + 1) "user" text None = (Ok saved, d) →
  let prompt :=
    default "" (BotManager.prompts step.1.1 !! bot_type (st w)) in
  ∃ request,
    api_log (rerun fs max_messages w step) = api_log w ++ [request]
    ∧ BotManager.Request.messages request
      = (if decide (prompt = "") then []
         else [{| BotManager.role := "system"; BotManager.content := prompt |}])
        ++ filter (λ m, BotManager.role m = "user"
                        ∨ BotManager.role m = "assistant")
             (Py.last_n 20 (messages (st w)))
        ++ [{| BotManager.role := "user"; BotManager.content := text |}].
Proof.
  intros Hchat Hlt Hsid Hmiss Hin Htext Hclear Hsave prompt.
  apply chatting_spec in Hchat as (Hw & Hc & Ha).
  pose proof (proj2 (truthy_nonempty _) Htext) as Htruthy.
  pose proof (proj2 (truthy_nonempty _) Hsid) as Hsidt.
  set (w0 := with_error (with_bot w step.1.1 (api_log w)) None).
  set (hist := filter (λ m, BotManager.role m = "user"
                            ∨ BotManager.role m = "assistant")
                 (Py.last_n 20 (messages (st w)))).
  set (sess := {| BotManager.participant_id := participant_id (st w);
                  BotManager.bot_type := bot_type (st w);
                  BotManager.history := hist |}).
  assert (Hre : rehydrate w0
                = with_bot w0
                    (BotManager.set_sessions step.1.1
                       (<[session_id (st w) := sess]>
                          (BotManager.sessions step.1.1)))
                    (api_log w)).
  { unfold rehydrate. simpl. rewrite Hsidt.
    by rewrite bool_decide_eq_true_2 by exact Hmiss. }
  exists (BotManager.request_for step.1.1
            (BotManager.build_messages step.1.1 sess text)).
  split.
  - unfold rerun. rewrite main_active by done.
    rewrite (active_below_cap _ _ _ text) by done.
    fold w0. rewrite Hre. unfold send. simpl. rewrite Hsave. simpl.
    rewrite (get_bot_response_clear fs _ (api_log w) (session_id (st w)) text
               _ sess); [|simpl; apply lookup_insert_eq|exact Hclear].
    simpl.
    destruct (save_message d _ _ _ _ _) as [[x|e] d']; reflexivity.
  - simpl. unfold BotManager.build_messages. simpl. fold prompt.
    assert (Hshort : Py.last_n 20 hist = hist).
    { apply last_n_short. unfold hist.
      etrans; [apply length_filter|]. rewrite last_n_length. lia. }
    rewrite Hshort.
    destruct (decide (prompt = "")) as [->|Hne]; [reflexivity|].
    apply truthy_nonempty in Hne. by rewrite Hne.
Qed.

End PageLife.

(** The example page keeps its counter within the cap of 3 over five runs. *)
Lemma counter_never_exceeds_cap_witness :
  App.current_message_num (App.st (Examples.page Examples.answering)) ≤ 3
  ∧ App.current_message_num
      (App.st (App.runs Examples.disk 3
                 (Examples.three_turns
                  ++ [Examples.user_run "one more"; Examples.user_run "again"])
                 (Examples.page Examples.answering))) ≤ 3.
Proof.
  assert (Hle : App.current_message_num
                  (App.st (Examples.page Examples.answering)) ≤ 3)
    by (simpl; lia).
  split; [exact Hle|].
  apply (counter_never_exceeds_cap Examples.disk 3); [lia|exact Hle].
Defined.

(** Texts typed on the finished example page change nothing. *)
Lemma completed_page_is_final_witness :
  App.show_welcome (App.st Examples.finished_page) = false
  ∧ App.conversation_complete (App.st Examples.finished_page) = true
  ∧ App.st (App.runs Examples.disk 3 Examples.three_turns Examples.finished_page)
    = App.st Examples.finished_page.
Proof.
  assert (Hw : App.show_welcome (App.st Examples.finished_page) = false)
    by reflexivity.
  assert (Hc : App.conversation_complete (App.st Examples.finished_page) = true)
    by reflexivity.
  split; [exact Hw|]. split; [exact Hc|].
  exact (proj1 (completed_page_is_final Examples.disk 3 Examples.three_turns
                  Examples.finished_page Hw Hc)).
Defined.

(** A first text on the example page. *)
Lemma user_turn_is_answered_witness :
  let w := Examples.page Examples.answering in
  App.save_message (App.db w) "PA1B2C3D4" 1 "user" "hello" None
  = (Ok (Some 2),
     App.db w ++ [Examples.Message "PA1B2C3D4" 1 "user" "hello" None])
  ∧ ∃ reply,
      App.messages (App.st (App.rerun Examples.disk 3 w (Examples.user_run "hello")))
      = [{| BotManager.role := "user"; BotManager.content := "hello" |};
         {| BotManager.role := "assistant"; BotManager.content := reply |}].
Proof.
  intros w.
  assert (Hsave : App.save_message (App.db w) "PA1B2C3D4" 1 "user" "hello" None
                  = (Ok (Some 2),
                     App.db w
                     ++ [Examples.Message "PA1B2C3D4" 1 "user" "hello" None]))
    by reflexivity.
  split; [exact Hsave|].
  destruct (user_turn_is_answered Examples.disk 3 w (Examples.user_run "hello")
              "hello" (Some 2) _ eq_refl ltac:(simpl; lia)
              ltac:(discriminate) eq_refl ltac:(discriminate) Hsave)
    as (reply & Hm & _).
  exists reply. exact Hm.
Defined.

(** Consent on the example welcome page. *)
Lemma consent_opens_the_conversation_witness :
  App.show_welcome (App.st Examples.welcome_page) = true
  ∧ App.consent Examples.consenting = true
  ∧ let r := App.main Examples.disk 3 Examples.consenting Examples.fresh_ids
               Examples.welcome_page in
    App.show_welcome (App.st r.2) = false
    ∧ App.current_message_num (App.st r.2) = 0
    ∧ App.session_id (App.st r.2) = Examples.session_id.
Proof.
  assert (Hw : App.show_welcome (App.st Examples.welcome_page) = true)
    by reflexivity.
  assert (Hc : App.consent Examples.consenting = true) by reflexivity.
  split; [exact Hw|]. split; [exact Hc|].
  destruct (proj2 (consent_opens_the_conversation Examples.disk 3
                     Examples.consenting Examples.fresh_ids
                     Examples.welcome_page Hw) Hc ltac:(discriminate))
    as (_ & Hsw & _ & _ & Hn & Hsid & _).
  intros r. split; [exact Hsw|]. split; [exact Hn|exact Hsid].
Defined.

(** After a short-circuited first message, the next message of the example
    page goes out with the earlier exchange as context. *)
Lemma context_comes_from_the_page_witness :
  let w := Examples.page_after_crisis in
  App.chatting (App.st w) = true
  ∧ BotManager.sessions (Examples.manager Examples.answering)
      !! App.session_id (App.st w) = None
  ∧ ∃ request,
      App.api_log (App.rerun Examples.disk 3 w (Examples.user_run "thanks"))
      = App.api_log w ++ [request]
      ∧ BotManager.Request.messages request
        = [{| BotManager.role := "system";
              BotManager.content := "Respond with warmth." |};
           {| BotManager.role := "user";
              BotManager.content := "I want to end my life" |};
           {| BotManager.role := "assistant";
              BotManager.content :=
                "You are not alone. Please call or text 988." |};
           {| BotManager.role := "user"; BotManager.content := "thanks" |}].
Proof.
  intros w.
  assert (Hchat : App.chatting (App.st w) = true) by reflexivity.
  assert (Hmiss : BotManager.sessions (Examples.manager Examples.answering)
                  !! App.session_id (App.st w) = None) by reflexivity.
  split; [exact Hchat|]. split; [exact Hmiss|].
  assert (Hsave : App.save_message (App.db w) (App.participant_id (App.st w))
                    (App.current_message_num (App.st w) + 1) "user" "thanks"
                    None
                  = (Ok (Some 5),
                     App.db w
                     ++ [Examples.Message "PA1B2C3D4" 2 "user" "thanks" None]))
    by reflexivity.
  destruct (context_comes_from_the_page Examples.disk 3 w
              (Examples.user_run "thanks") "thanks" (Some 5) _ Hchat
              ltac:(vm_compute; reflexivity) ltac:(discriminate) Hmiss eq_refl
              ltac:(discriminate) eq_refl Hsave)
    as (request & Hlog & Hmsgs).
  exists request. split; [exact Hlog|exact Hmsgs].
Defined.

(** Rehydration of the example page on a manager without the session. *)
Lemma rehydrate_restores_the_session_witness :
  let w := App.with_bot Examples.page_after_crisis
             (Examples.manager Examples.answering) [] in
  App.session_id (App.st w) ≠ ""
  ∧ ∃ sess,
      BotManager.sessions (App.bot_manager (App.rehydrate w))
      !! Examples.session_id = Some sess
      ∧ length (BotManager.history sess) = 2%nat.
Proof.
  intros w.
  assert (Hsid : App.session_id (App.st w) ≠ "") by discriminate.
  split; [exact Hsid|].
  pose proof (proj1 (rehydrate_restores_the_session w) Hsid) as Hre.
  change (BotManager.sessions (App.bot_manager w) !! App.session_id (App.st w))
    with (@None BotManager.session) in Hre.
  destruct Hre as (sess & Hs & _ & _ & Hh & _).
  exists sess. split; [exact Hs|]. rewrite Hh. reflexivity.
Defined.

(** The random strategy on the two example studies. *)
Lemma random_strategy_ignores_statistics_witness :
  "neutral" ∈ RandomAssignment.bot_types
  ∧ ∃ draw', RandomAssignment.assign_bot_type "random" Examples.skewed_study draw'
             = Ok "neutral".
Proof.
  assert (Hin : "neutral" ∈ RandomAssignment.bot_types)
    by (unfold RandomAssignment.bot_types; set_solver).
  split; [exact Hin|].
  exact (proj2 (proj2 (random_strategy_ignores_statistics Examples.skewed_study
                         Examples.fresh_study 0)) "neutral" Hin).
Defined.

(** Cleaning up the example conversation. *)
Lemma cleanup_forgets_the_session_witness :
  let self :=
    ConversationHandler.run (ConversationHandler.__init__ 3)
      (Examples.handler_calls
       ++ [ConversationHandler.StartConversation "s2" "P002" "neutral" 300]) in
  "s2" ≠ "s1"
  ∧ ConversationHandler.get_conversation_state
      (ConversationHandler.cleanup_conversation self "s1") "s1" = None
  ∧ ConversationHandler.get_conversation_state
      (ConversationHandler.cleanup_conversation self "s1") "s2"
    = ConversationHandler.get_conversation_state self "s2".
Proof.
  intros self.
  assert (Hne : "s2" ≠ "s1") by discriminate.
  split; [exact Hne|].
  destruct (cleanup_forgets_the_session self "s1" "user" "hello" 400)
    as (Hgone & _ & _ & _ & _ & _ & Hother).
  split; [exact Hgone|exact (Hother "s2" Hne)].
Defined.

(** The configuration file of the example disk is found at its first
    place, and no crisis file at either place. *)
Lemma first_existing_path_is_earliest_witness :
  BotManager._first_existing_path Examples.disk
    ["config/app_config.yaml"; "app_config.yaml"]
  = Some "config/app_config.yaml"
  ∧ (∀ q, q ∈ ["config/crisis_response.txt"; "crisis_response.txt"] →
          q = "" ∨ Examples.disk !! q = None).
Proof.
  split; [reflexivity|].
  exact (first_existing_path_is_earliest Examples.disk
           ["config/crisis_response.txt"; "crisis_response.txt"]).
Defined.

(** A turn of the example session leaves a second session as it is. *)
Lemma turn_touches_one_history_witness :
  let self :=
    (BotManager.create_new_session (Examples.started Examples.answering)
       "7c9e6679-7425-40de-944b-e07fc1f90ae7"
       "b2c3d4e5-0000-4000-8000-000000000000" 3).2 in
  "7c9e6679-7425-40de-944b-e07fc1f90ae7" ≠ Examples.session_id
  ∧ BotManager.sessions
      (BotManager.get_bot_response Examples.disk self [] Examples.session_id
         "hello" 1).1.2 !! "7c9e6679-7425-40de-944b-e07fc1f90ae7"
    = BotManager.sessions self !! "7c9e6679-7425-40de-944b-e07fc1f90ae7".
Proof.
  intros self.
  assert (Hne : "7c9e6679-7425-40de-944b-e07fc1f90ae7" ≠ Examples.session_id)
    by discriminate.
  split; [exact Hne|].
  exact (proj1 (turn_touches_one_history Examples.disk self []
                  Examples.session_id "hello" 1) _ Hne).
Defined.
